(** * Request signing in botocore/auth.py

  A shallow embedding of the signer classes of [botocore/auth.py]
  (SigV2Auth, SigV3Auth, SigV4Auth, S3SigV4Auth, HmacV1Auth) together with
  the Python built-ins and standard-library containers they rely on, and
  the properties of the signing subsystem stated against that embedding.

  Conventions.  A Python byte string is a [string] (a sequence of 8-bit
  characters); a text string is held as its UTF-8 bytes.
  [.encode('utf-8')] of a text string gives those bytes; of a byte string
  it is the identity on ASCII text and raises UnicodeDecodeError on any
  byte above 127.  The request body is modelled with that distinction
  ([Body], [body_encode]); keys, header values and the strings to sign
  are taken to be ASCII, on which [.encode('utf-8')] and
  [.decode('utf-8')] are the identity.  A [dict] is a [gmap]; an
  [HTTPHeaders] object is the list of (name, value) pairs that
  [email.message.Message] keeps in [_headers].  Hash functions are taken
  as an interface ([Hashlib]). *)

From Stdlib Require Import Ascii NArith.
From Stdlib Require String.
From stdpp Require Import base tactics option list sorting strings gmap.
From Equations Require Import Equations.

(** ** Python string built-ins *)

Module Py.
Local Open Scope char_scope.

Definition ord (c : ascii) : N := N_of_ascii c.

Definition in_range (lo hi c : ascii) : bool :=
  (ord lo <=? ord c)%N && (ord c <=? ord hi)%N.

Definition is_upper (c : ascii) : bool := in_range "A" "Z" c.
Definition is_lower (c : ascii) : bool := in_range "a" "z" c.
Definition is_digit (c : ascii) : bool := in_range "0" "9" c.

(** [c.lower()] for one character. *)
Definition lower_char (c : ascii) : ascii :=
  if is_upper c then ascii_of_N (ord c + 32) else c.

(** [s.lower()] *)
Fixpoint lower (s : string) : string :=
  match s with
  | EmptyString => EmptyString
  | String c s' => String (lower_char c) (lower s')
  end.

(** [s.upper()] *)
Definition upper_char (c : ascii) : ascii :=
  if is_lower c then ascii_of_N (ord c - 32) else c.

Fixpoint upper (s : string) : string :=
  match s with
  | EmptyString => EmptyString
  | String c s' => String (upper_char c) (upper s')
  end.

(** [c.isspace()]: the six ASCII whitespace characters. *)
Definition isspace (c : ascii) : bool := Ascii.is_space c.

(** [s.lstrip()] *)
Fixpoint lstrip (s : string) : string :=
  match s with
  | EmptyString => EmptyString
  | String c s' => if isspace c then lstrip s' else s
  end.

(** [s.rstrip()] *)
Fixpoint rstrip (s : string) : string :=
  match s with
  | EmptyString => EmptyString
  | String c s' =>
      match rstrip s' with
      | EmptyString => if isspace c then EmptyString else String c EmptyString
      | r => String c r
      end
  end.

(** [s.strip()] *)
Definition strip (s : string) : string := rstrip (lstrip s).

(** No character of [s] is whitespace. *)
Fixpoint no_space (s : string) : Prop :=
  match s with
  | EmptyString => True
  | String c s' => isspace c = false ∧ no_space s'
  end.

(** [s.startswith(p)] *)
Definition startswith (s p : string) : bool := String.prefix p s.

(** [c in s] for a character [c]. *)
Fixpoint char_in (c : ascii) (s : string) : bool :=
  match s with
  | EmptyString => false
  | String d s' => Ascii.eqb c d || char_in c s'
  end.

(** [sep.join(l)] *)
Definition join (sep : string) (l : list string) : string :=
  String.concat sep l.

(** [s.split(sep)] for a one-character separator: always at least one
    field, empty fields kept. *)
Fixpoint split (sep : ascii) (s : string) : list string :=
  match s with
  | EmptyString => [EmptyString]
  | String c s' =>
      if Ascii.eqb c sep then EmptyString :: split sep s'
      else match split sep s' with
           | [] => [String c EmptyString]
           | w :: ws => String c w :: ws
           end
  end.

(** [s.split(sep, 1)]: one field when [sep] does not occur, otherwise the
    text before the first [sep] and everything after it. *)
Fixpoint split1 (sep : ascii) (s : string) : list string :=
  match s with
  | EmptyString => [EmptyString]
  | String c s' =>
      if Ascii.eqb c sep then [EmptyString; s']
      else match split1 sep s' with
           | w :: ws => String c w :: ws
           | [] => [String c EmptyString]
           end
  end.

(** [s[:n]] and [s[n:]] *)
Fixpoint take (n : nat) (s : string) : string :=
  match n, s with
  | S n', String c s' => String c (take n' s')
  | _, _ => EmptyString
  end.

Fixpoint drop (n : nat) (s : string) : string :=
  match n, s with
  | S n', String _ s' => drop n' s'
  | _, _ => s
  end.

(** [s[:n]] with a binary bound, for buffer sizes. *)
Fixpoint takeN (n : N) (s : string) : string :=
  match s with
  | EmptyString => EmptyString
  | String c s' => if (n =? 0)%N then EmptyString else String c (takeN (N.pred n) s')
  end.

(** The line feed, ['\n']. *)
Definition LF : string := String "010" EmptyString.

(** Every byte of [s] is below 128. *)
Fixpoint is_ascii (s : string) : bool :=
  match s with
  | EmptyString => true
  | String c s' => (ord c <? 128)%N && is_ascii s'
  end.

(** Truth value of a string: non-empty. *)
Definition truthy (s : string) : bool :=
  match s with EmptyString => false | _ => true end.

(** Stable sort by a string key, the contract of [sorted(l, key=...)] and
    [l.sort(key=...)]: keys are compared as byte strings, and elements
    with equal keys keep their relative order. *)
Section Sort.
Context {A : Type} (key : A → string).

Fixpoint insert_on (x : A) (l : list A) : list A :=
  match l with
  | [] => [x]
  | y :: l' =>
      if String.leb (key x) (key y) then x :: l else y :: insert_on x l'
  end.

Definition sort_on (l : list A) : list A := foldr insert_on [] l.

(** The order that [sort_on] establishes. *)
Definition key_le (a b : A) : Prop := String.le (key a) (key b).
End Sort.

(** [sorted(l)] on a list of strings. *)
Definition sorted (l : list string) : list string := sort_on id l.

(** [operator.itemgetter(0)] applied to a string: its first character as a
    one-character string.  (Python raises IndexError on the empty string;
    the callers below only apply it to strings that contain ['=']). *)
Definition itemgetter0_str (s : string) : string :=
  match s with
  | EmptyString => EmptyString
  | String c _ => String c EmptyString
  end.

(** [operator.itemgetter(0)] applied to a list of strings. *)
Definition itemgetter0 (l : list string) : string :=
  match l with
  | [] => EmptyString
  | k :: _ => k
  end.

End Py.


(** ** urllib: percent-encoding (Python 2.7 [urllib.quote] / [urllib.unquote]) *)

Module Urllib.
Local Open Scope char_scope.

(** [urllib.always_safe] *)
Definition always_safe : string :=
  "ABCDEFGHIJKLMNOPQRSTUVWXYZabcdefghijklmnopqrstuvwxyz0123456789_.-"%string.

Definition hex_upper (n : N) : ascii :=
  match String.get (N.to_nat n) "0123456789ABCDEF"%string with
  | Some c => c
  | None => "0"
  end.

(** ['%%%02X' % ord(c)] *)
Definition pct (c : ascii) : string :=
  String "%" (String (hex_upper (Py.ord c / 16))
                     (String (hex_upper (Py.ord c mod 16)) EmptyString)).

(** One entry of the quoter table: characters of [always_safe] and of
    [safe] map to themselves, every other byte to its [%XX] escape. *)
Definition quoter (safe : string) (c : ascii) : string :=
  if Py.char_in c safe || Py.char_in c always_safe
  then String c EmptyString
  else pct c.

(** [quote(s, safe)] *)
Fixpoint quote (s safe : string) : string :=
  match s with
  | EmptyString => EmptyString
  | String c s' => quoter safe c +:+ quote s' safe
  end.

Definition hex_value (c : ascii) : option N :=
  if Py.is_digit c then Some (Py.ord c - 48)%N
  else if Py.in_range "A" "F" c then Some (Py.ord c - 55)%N
  else if Py.in_range "a" "f" c then Some (Py.ord c - 87)%N
  else None.

(** [unquote(s)]: every [%XX] with two hexadecimal digits becomes the
    byte it names; any other ['%'] stays as it is. *)
Fixpoint unquote (s : string) : string :=
  match s with
  | EmptyString => EmptyString
  | String c s' =>
      if Ascii.eqb c "%" then
        match s' with
        | String h (String l rest) =>
            match hex_value h, hex_value l with
            | Some a, Some b => String (ascii_of_N (16 * a + b)) (unquote rest)
            | _, _ => String c (unquote s')
            end
        | _ => String c (unquote s')
        end
      else String c (unquote s')
  end.

(** The result of [urlsplit(url)]. *)
Record SplitResult : Type := mkSplit {
  scheme : string;
  netloc : string;
  path : string;
  query : string;
  fragment : string
}.

End Urllib.

(** ** base64 and hex encodings *)

Module Base64.
Local Open Scope char_scope.

Definition alphabet : string :=
  "ABCDEFGHIJKLMNOPQRSTUVWXYZabcdefghijklmnopqrstuvwxyz0123456789+/"%string.

Definition sextet (n : N) : ascii :=
  match String.get (N.to_nat (n mod 64)) alphabet with
  | Some c => c
  | None => "="
  end.

(** [base64.b64encode(s)] *)
Fixpoint b64encode (s : string) : string :=
  match s with
  | EmptyString => EmptyString
  | String a EmptyString =>
      let x := Py.ord a in
      String (sextet (x / 4)) (String (sextet (x mod 4 * 16))
        (String "=" (String "=" EmptyString)))
  | String a (String b EmptyString) =>
      let x := Py.ord a in
      let y := Py.ord b in
      String (sextet (x / 4)) (String (sextet (x mod 4 * 16 + y / 16))
        (String (sextet (y mod 16 * 4)) (String "=" EmptyString)))
  | String a (String b (String c rest)) =>
      let x := Py.ord a in
      let y := Py.ord b in
      let z := Py.ord c in
      String (sextet (x / 4)) (String (sextet (x mod 4 * 16 + y / 16))
        (String (sextet (y mod 16 * 4 + z / 64)) (String (sextet (z mod 64))
          (b64encode rest))))
  end.

(** [base64.encodestring(s)]: each piece of at most 57 input bytes is
    encoded on a line of its own, newline included. *)
Fixpoint encode_lines (fuel : nat) (s : string) : string :=
  match fuel, s with
  | S fuel', String _ _ =>
      b64encode (Py.take 57 s) +:+ Py.LF +:+ encode_lines fuel' (Py.drop 57 s)
  | _, _ => EmptyString
  end.

Definition encodestring (s : string) : string :=
  encode_lines (String.length s) s.

Definition hex_lower (n : N) : ascii :=
  match String.get (N.to_nat n) "0123456789abcdef"%string with
  | Some c => c
  | None => "0"
  end.

(** [binascii.hexlify(s)], the rendering used by [hexdigest()]. *)
Fixpoint hexlify (s : string) : string :=
  match s with
  | EmptyString => EmptyString
  | String c s' =>
      String (hex_lower (Py.ord c / 16))
        (String (hex_lower (Py.ord c mod 16)) (hexlify s'))
  end.

End Base64.

(** ** Hash functions and helpers imported by auth.py *)

(** [hashlib] and [hmac], as functions from byte strings to digests. *)
Class Hashlib : Type := {
  sha256 : string → string;
  hmac_sha256 : string → string → string;
  hmac_sha1 : string → string → string
}.

(** [botocore.utils.normalize_url_path], imported by auth.py; its code is
    outside this module. *)
Class BotocoreUtils : Type := {
  normalize_url_path : string → string
}.

(** The three renderings of the current instant that the signers ask
    for: [datetime.utcnow().isoformat()],
    [datetime.utcnow().strftime('%Y%m%dT%H%M%SZ')] and
    [email.utils.formatdate(usegmt=True)]. *)
Record Clock : Type := mkClock {
  isoformat : string;
  strftime_amz : string;
  formatdate_gmt : string
}.

(** ** HTTPHeaders (compat.py): [email.message.Message]

    The object keeps a list [_headers] of (name, value) pairs.  Lookups
    compare names case-insensitively; assignment appends a pair and never
    replaces one; deletion removes every pair of that name. *)

Module HTTPHeaders.

Definition t : Type := list (string * string).

Definition matches (name : string) (kv : string * string) : bool :=
  String.eqb (Py.lower kv.1) (Py.lower name).

(** [name in h] *)
Definition contains (name : string) (h : t) : bool :=
  existsb (matches name) h.

(** [h[name] = val] *)
Definition setitem (name val : string) (h : t) : t := h ++ [(name, val)].

(** [del h[name]] *)
Definition delitem (name : string) (h : t) : t :=
  List.filter (λ kv, negb (matches name kv)) h.

(** [h.get(name)], also [h[name]]: the first value of that name, or None. *)
Definition get (name : string) (h : t) : option string :=
  snd <$> List.find (matches name) h.

(** [h.get_all(name)]: every value of that name, in order.  (Python gives
    None instead of an empty list; auth.py only asks for names it has just
    read from the same object.) *)
Definition get_all (name : string) (h : t) : list string :=
  map snd (List.filter (matches name) h).

(** [h.items()] *)
Definition items (h : t) : list (string * string) := h.

(** [iter(h)]: the names, one per pair. *)
Definition iter (h : t) : list string := map fst h.

(** The number of pairs stored under [name]. *)
Definition count (name : string) (h : t) : nat :=
  length (get_all name h).

(** [HTTPHeaders.from_pairs(pairs)] (compat.py): a new object, filled by
    item assignment in the order of [pairs]. *)
Definition from_pairs (pairs : list (string * string)) : t :=
  foldl (λ new_instance kv, setitem kv.1 kv.2 new_instance) [] pairs.

(** [HTTPHeaders.from_dict(d)] (compat.py): the same, over [d.items()]. *)
Definition from_dict (d : gmap string string) : t :=
  foldl (λ new_instance kv, setitem kv.1 kv.2 new_instance) [] (map_to_list d).

End HTTPHeaders.

(** ** Exceptions, credentials, requests *)

(** The exceptions that can leave a signer: those of
    [botocore.exceptions] that concern signing, and the built-in ones that
    the code can trigger on the objects modelled here. *)
Inductive exn : Type :=
| NoCredentialsError
| UnseekableStreamError
| AttributeError
| IOError
| NotImplementedError
| UnicodeDecodeError.

Record Credentials : Type := mkCredentials {
  access_key : string;
  secret_key : string;
  token : option string
}.

(** [if credentials.token:] *)
Definition token_truthy (c : Credentials) : option string :=
  match token c with
  | Some t => if Py.truthy t then Some t else None
  | None => None
  end.

(** A file-like body: its bytes, its read position, whether the object
    has a [seek] attribute at all, and whether [tell()]/[seek()] work on
    it (they raise IOError on a pipe or a socket file).  The model covers
    the streams on which [tell()] and [seek()] work or fail together and
    on which [read()] does not fail. *)
Record Stream : Type := mkStream {
  content : string;
  pos : nat;
  has_seek : bool;
  seekable : bool
}.

(** [request.body]: None, a byte string ([str]), a text string ([unicode],
    held as its UTF-8 bytes), or a file-like object. *)
Inductive Body : Type :=
| BodyNone
| BodyStr (s : string)
| BodyUnicode (u : string)
| BodyStream (f : Stream).

(** The request object handed to [add_auth], with the attributes that
    auth.py reads or writes.  [url] holds [urlsplit(request.url)]. *)
Record Request : Type := mkRequest {
  method : string;
  url : Urllib.SplitResult;
  headers : HTTPHeaders.t;
  params : gmap string string;
  param : gmap string string;
  data : gmap string string;
  body : Body
}.

Definition with_headers (h : HTTPHeaders.t) (r : Request) : Request :=
  mkRequest (method r) (url r) h (params r) (param r) (data r) (body r).

Definition with_body (b : Body) (r : Request) : Request :=
  mkRequest (method r) (url r) (headers r) (params r) (param r) (data r) b.

Definition with_param (p : gmap string string) (r : Request) : Request :=
  mkRequest (method r) (url r) (headers r) (params r) p (data r) (body r).

Definition with_data (d : gmap string string) (r : Request) : Request :=
  mkRequest (method r) (url r) (headers r) (params r) (param r) d (body r).

(** Truth value of a dict: non-empty. *)
Definition dict_truthy (d : gmap string string) : bool :=
  negb (bool_decide (d = ∅)).

(** ** Computations that mutate the request and may raise *)

Definition M (A : Type) : Type := Request → (exn + A) * Request.

Definition ret {A : Type} (a : A) : M A := λ r, (inr a, r).

Definition raise {A : Type} (e : exn) : M A := λ r, (inl e, r).

Definition bind {A B : Type} (m : M A) (k : A → M B) : M B :=
  λ r, match m r with
       | (inl e, r') => (inl e, r')
       | (inr a, r') => k a r'
       end.

Definition get_request : M Request := λ r, (inr r, r).

Definition modify_headers (f : HTTPHeaders.t → HTTPHeaders.t) : M unit :=
  λ r, (inr tt, with_headers (f (headers r)) r).

Notation "'let!' x ':=' m 'in' k" := (bind m (λ x, k))
  (at level 10, x name, m at level 100, k at level 200,
   format "'[v' 'let!'  x  ':='  m  'in' '/' k ']'").

Notation "m ';;;' k" := (bind m (λ _, k))
  (at level 100, k at level 200, right associativity).

(** ** Module constants *)

Definition EMPTY_SHA256_HASH : string :=
  "e3b0c44298fc1c149afbf4c8996fb92427ae41e4649b934ca495991b7852b855".

Definition PAYLOAD_BUFFER : N := 1024 * 1024.

(** The keys of a dict, in the order in which it hands them over. *)
Definition keys (d : gmap string string) : list string :=
  (map_to_list d).*1.

(** ** class BaseSigner *)

Module BaseSigner.

Definition REQUIRES_REGION : bool := false.

Definition add_auth : M unit := raise NotImplementedError.

End BaseSigner.

(** ** class SigV2Auth *)

Module SigV2Auth.
Section Sign.
Context `{Hashlib}.

Record self_t : Type := mkSelf { credentials : option Credentials }.

(** The local variable [string_to_sign] of [calc_signature], before the
    query string is added. *)
Definition string_to_sign_head (request : Request) : string :=
  let split := url request in
  let path :=
    if Nat.eqb (String.length (Urllib.path split)) 0 then "/"
    else Urllib.path split in
  method request +:+ Py.LF +:+ Urllib.netloc split +:+ Py.LF +:+ path +:+ Py.LF.

Definition pairs (params : gmap string string) : list string :=
  map (λ key, Urllib.quote key "" +:+ "=" +:+
              Urllib.quote (params !!! key) "-_~")
      (Py.sorted (keys params)).

Definition string_to_sign (request : Request)
    (params : gmap string string) : string :=
  string_to_sign_head request +:+ Py.join "&" (pairs params).

Definition calc_signature (c : Credentials) (request : Request)
    (params : gmap string string) : string * string :=
  let qs := Py.join "&" (pairs params) in
  let string_to_sign := string_to_sign_head request +:+ qs in
  let b64 :=
    Py.strip (Base64.b64encode (hmac_sha256 (secret_key c) string_to_sign)) in
  (qs, b64).

Definition add_auth (now : Clock) (self : self_t) : M unit :=
  match credentials self with
  | None => raise NoCredentialsError
  | Some c => λ request,
      let post := dict_truthy (data request) in
      let params := if post then data request else param request in
      let params := <["AWSAccessKeyId" := access_key c]> params in
      let params := <["SignatureVersion" := "2"]> params in
      let params := <["SignatureMethod" := "HmacSHA256"]> params in
      let params := <["Timestamp" := isoformat now]> params in
      let params :=
        match token_truthy c with
        | Some t => <["SecurityToken" := t]> params
        | None => params
        end in
      let '(qs, signature) := calc_signature c request params in
      let params := <["Signature" := signature]> params in
      (inr tt, if post then with_data params request
               else with_param params request)
  end.

End Sign.
End SigV2Auth.

(** ** class SigV3Auth *)

Module SigV3Auth.
Section Sign.
Context `{Hashlib}.

Record self_t : Type := mkSelf { credentials : option Credentials }.

Definition add_auth (now : Clock) (self : self_t) : M unit :=
  match credentials self with
  | None => raise NoCredentialsError
  | Some c =>
      let! r := get_request in
      (if HTTPHeaders.contains "Date" (headers r) then ret tt
       else modify_headers (HTTPHeaders.setitem "Date" (formatdate_gmt now))) ;;;
      match token_truthy c with
      | Some t => modify_headers (HTTPHeaders.setitem "X-Amz-Security-Token" t)
      | None => ret tt
      end ;;;
      let! r := get_request in
      let! date :=
        match HTTPHeaders.get "Date" (headers r) with
        | Some d => ret d
        | None => raise AttributeError
        end in
      let encoded_signature :=
        Py.strip (Base64.encodestring (hmac_sha256 (secret_key c) date)) in
      let signature :=
        "AWS3-HTTPS AWSAccessKeyId=" +:+ access_key c +:+
        ",Algorithm=" +:+ "HmacSHA256" +:+
        ",Signature=" +:+ encoded_signature in
      modify_headers (HTTPHeaders.setitem "X-Amzn-Authorization" signature)
  end.

End Sign.
End SigV3Auth.

(** ** File-like bodies *)

Module File.

(** The bytes from the read position to the end. *)
Definition rest (f : Stream) : string := Py.drop (pos f) (content f).

Definition at_pos (p : nat) (f : Stream) : Stream :=
  mkStream (content f) p (has_seek f) (seekable f).

(** [f.read(n)]: at most [n] bytes from the read position, which moves
    past them; the empty string at end of file. *)
Definition read (n : N) (f : Stream) : string * Stream :=
  let chunk := Py.takeN n (rest f) in
  (chunk, at_pos (pos f + String.length chunk) f).

(** [f.tell()] *)
Definition tell (f : Stream) : exn + nat :=
  if seekable f then inr (pos f) else inl IOError.

(** [f.seek(p)] *)
Definition seek (p : nat) (f : Stream) : exn + Stream :=
  if seekable f then inr (at_pos p f) else inl IOError.

(** The number of bytes a read loop can still consume. *)
Definition left (f : Stream) : nat := String.length (content f) - pos f.

End File.

(** [if request.body] *)
Definition body_truthy (b : Body) : bool :=
  match b with
  | BodyNone => false
  | BodyStr s => Py.truthy s
  | BodyUnicode u => Py.truthy u
  | BodyStream _ => true
  end.

(** [hasattr(request.body, 'seek')] *)
Definition hasattr_seek (b : Body) : bool :=
  match b with
  | BodyStream f => has_seek f
  | _ => false
  end.

(** [request.body.encode('utf-8')]: defined on strings only.  A text
    string gives its UTF-8 bytes; a byte string is first decoded as ASCII,
    which fails on a byte above 127. *)
Definition body_encode (b : Body) : exn + string :=
  match b with
  | BodyStr s => if Py.is_ascii s then inr s else inl UnicodeDecodeError
  | BodyUnicode u => inr u
  | _ => inl AttributeError
  end.

(** ** class SigV4Auth and its subclass S3SigV4Auth *)

Module SigV4Auth.

(** Which class the object belongs to: [S3SigV4Auth] overrides
    [_add_headers_before_signing] and [_normalize_url_path]. *)
Inductive cls : Type := Plain | S3.

Record self_t : Type := mkSelf {
  klass : cls;
  credentials : option Credentials;
  timestamp : string;
  _region_name : string;
  _service_name : string
}.

Definition set_timestamp (ts : string) (self : self_t) : self_t :=
  mkSelf (klass self) (credentials self) ts
         (_region_name self) (_service_name self).

(** The loop [for chunk in iter(read_chunksize, b''): checksum.update(chunk)]
    of [payload]: [acc] is what the checksum object has been fed so far. *)
Equations? read_loop (n : N) (f : Stream) (acc : string) : string * Stream
  by wf (File.left f) lt :=
read_loop n f acc with Equations.Prop.Logic.inspect (Py.truthy (File.read n f).1) := {
  | exist _ false _ => (acc, (File.read n f).2)
  | exist _ true E =>
      read_loop n (File.read n f).2 (acc +:+ (File.read n f).1) }.
Proof.
  assert (Hd : ∀ p s, String.length (Py.drop p s) = String.length s - p).
  { induction p as [|p IH]; intros [|c s]; simpl; auto with lia. }
  assert (Ht : ∀ s m, String.length (Py.takeN m s) ≤ String.length s).
  { induction s as [|c s IH]; intros m; simpl; [lia|].
    destruct (m =? 0)%N; simpl; [lia|]. specialize (IH (N.pred m)). lia. }
  unfold File.left, File.read, File.rest in *. simpl in *.
  specialize (Ht (Py.drop (pos f) (content f)) n). rewrite Hd in Ht.
  destruct (Py.takeN n (Py.drop (pos f) (content f))); simpl in *; [done|lia].
Qed.

Section Sign.
Context `{Hashlib} `{BotocoreUtils}.

(** [_sign(key, msg)] and [_sign(key, msg, hex=True)] *)
Definition _sign (key msg : string) : string := hmac_sha256 key msg.

Definition _sign_hex (key msg : string) : string :=
  Base64.hexlify (hmac_sha256 key msg).

(** [sha256(data).hexdigest()] *)
Definition sha256_hexdigest (data : string) : string :=
  Base64.hexlify (sha256 data).

Definition headers_to_sign (request : Request) : HTTPHeaders.t :=
  let header_map :=
    foldl (λ hm nv, HTTPHeaders.setitem (Py.lower nv.1) nv.2 hm) []
          (HTTPHeaders.items (headers request)) in
  if HTTPHeaders.contains "host" header_map then header_map
  else HTTPHeaders.setitem "host" (Urllib.netloc (url request)) header_map.

(** The list [l] of [_canonical_query_string_params] before sorting. *)
Definition encoded_params (params : gmap string string) : list string :=
  map (λ kv, Urllib.quote kv.1 "-_.~" +:+ "=" +:+ Urllib.quote kv.2 "-_.~")
      (map_to_list params).

Definition _canonical_query_string_params
    (params : gmap string string) : string :=
  Py.join "&" (Py.sorted (encoded_params params)).

(** The list [quoted_qsa] of [_canonical_query_string_url] before sorting. *)
Definition quoted_qsa (query : string) : list string :=
  let qsa := map (Py.split1 "=") (Py.split "&" query) in
  flat_map (λ q,
    match q with
    | [k; v] => [Urllib.quote k "-_.~" +:+ "=" +:+
                 Urllib.quote (Urllib.unquote v) "-_.~"]
    | [k] => [Urllib.quote k "-_.~" +:+ "="]
    | _ => []
    end) qsa.

Definition _canonical_query_string_url (parts : Urllib.SplitResult) : string :=
  if Py.truthy (Urllib.query parts) then
    let quoted := quoted_qsa (Urllib.query parts) in
    if Nat.ltb 0 (length quoted)
    then Py.join "&" (Py.sort_on Py.itemgetter0_str quoted)
    else ""
  else "".

Definition canonical_query_string (request : Request) : string :=
  if dict_truthy (params request)
  then _canonical_query_string_params (params request)
  else _canonical_query_string_url (url request).

(** [sorted(set(headers_to_sign))] *)
Definition sorted_header_names (h : HTTPHeaders.t) : list string :=
  Py.sorted (remove_dups (HTTPHeaders.iter h)).

(** The list [headers] of [canonical_headers], one entry per line. *)
Definition canonical_header_lines (h : HTTPHeaders.t) : list string :=
  map (λ key, key +:+ ":" +:+
              Py.join "," (map Py.strip (Py.sorted (HTTPHeaders.get_all key h))))
      (sorted_header_names h).

Definition canonical_headers (h : HTTPHeaders.t) : string :=
  Py.join Py.LF (canonical_header_lines h).

Definition signed_headers (h : HTTPHeaders.t) : string :=
  Py.join ";"
    (Py.sorted (map (λ n, Py.strip (Py.lower n))
                    (remove_dups (HTTPHeaders.iter h)))).

Definition payload : M string := λ request,
  let b := body request in
  if body_truthy b && hasattr_seek b then
    match b with
    | BodyStream f =>
        match File.tell f with
        | inl e => (inl e, request)
        | inr position =>
            let '(fed, f1) := read_loop PAYLOAD_BUFFER f "" in
            let hex_checksum := sha256_hexdigest fed in
            match File.seek position f1 with
            | inl e => (inl e, with_body (BodyStream f1) request)
            | inr f2 => (inr hex_checksum, with_body (BodyStream f2) request)
            end
        end
    | _ => (inl AttributeError, request)
    end
  else if body_truthy b then
    match body_encode b with
    | inl e => (inl e, request)
    | inr bytes => (inr (sha256_hexdigest bytes), request)
    end
  else (inr EMPTY_SHA256_HASH, request).

Definition _normalize_url_path (self : self_t) (path : string) : string :=
  match klass self with
  | Plain => normalize_url_path path
  | S3 => path
  end.

(** The value of [body_checksum] in [canonical_request]. *)
Definition body_checksum : M string :=
  let! request := get_request in
  if HTTPHeaders.contains "X-Amz-Content-SHA256" (headers request) then
    match HTTPHeaders.get "X-Amz-Content-SHA256" (headers request) with
    | Some v => ret v
    | None => raise AttributeError
    end
  else payload.

(** The list [cr] of [canonical_request]. *)
Definition canonical_request_parts (self : self_t) : M (list string) :=
  let! request := get_request in
  let path := _normalize_url_path self (Urllib.path (url request)) in
  let hts := headers_to_sign request in
  let! checksum := body_checksum in
  ret [ Py.upper (method request);
        path;
        canonical_query_string request;
        canonical_headers hts +:+ Py.LF;
        signed_headers hts;
        checksum ].

Definition canonical_request (self : self_t) : M string :=
  let! cr := canonical_request_parts self in
  ret (Py.join Py.LF cr).

Definition scope (self : self_t) (c : Credentials) : string :=
  Py.join "/" [ access_key c; Py.take 8 (timestamp self);
                _region_name self; _service_name self; "aws4_request" ].

Definition credential_scope (self : self_t) : string :=
  Py.join "/" [ Py.take 8 (timestamp self);
                _region_name self; _service_name self; "aws4_request" ].

Definition string_to_sign (self : self_t) (canonical_request : string) : string :=
  Py.join Py.LF [ "AWS4-HMAC-SHA256"; timestamp self; credential_scope self;
                  sha256_hexdigest canonical_request ].

Definition signature (self : self_t) (c : Credentials)
    (string_to_sign : string) : string :=
  let key := secret_key c in
  let k_date := _sign ("AWS4" +:+ key) (Py.take 8 (timestamp self)) in
  let k_region := _sign k_date (_region_name self) in
  let k_service := _sign k_region (_service_name self) in
  let k_signing := _sign k_service "aws4_request" in
  _sign_hex k_signing string_to_sign.

(** [SigV4Auth._add_headers_before_signing] *)
Definition base_add_headers_before_signing (self : self_t)
    (c : Credentials) : M unit :=
  let! request := get_request in
  (if HTTPHeaders.contains "Authorization" (headers request)
   then modify_headers (HTTPHeaders.delitem "Authorization")
   else ret tt) ;;;
  let! request := get_request in
  (if HTTPHeaders.contains "Date" (headers request) then ret tt
   else modify_headers (HTTPHeaders.setitem "X-Amz-Date" (timestamp self))) ;;;
  match token_truthy c with
  | Some t => modify_headers (HTTPHeaders.setitem "X-Amz-Security-Token" t)
  | None => ret tt
  end.

(** The headers as [SigV4Auth._add_headers_before_signing] leaves them. *)
Definition prepared_headers (self : self_t) (c : Credentials)
    (h : HTTPHeaders.t) : HTTPHeaders.t :=
  let h1 :=
    if HTTPHeaders.contains "Authorization" h
    then HTTPHeaders.delitem "Authorization" h else h in
  let h2 :=
    if HTTPHeaders.contains "Date" h1 then h1
    else HTTPHeaders.setitem "X-Amz-Date" (timestamp self) h1 in
  match token_truthy c with
  | Some t => HTTPHeaders.setitem "X-Amz-Security-Token" t h2
  | None => h2
  end.

(** [_add_headers_before_signing], dispatched on the class of [self]. *)
Definition _add_headers_before_signing (self : self_t)
    (c : Credentials) : M unit :=
  match klass self with
  | Plain => base_add_headers_before_signing self c
  | S3 =>
      base_add_headers_before_signing self c ;;;
      let! digest := payload in
      modify_headers (HTTPHeaders.setitem "X-Amz-Content-SHA256" digest)
  end.

(** The statements of [add_auth] after the call of
    [_add_headers_before_signing]: canonical request, string to sign,
    signature, and the Authorization header. *)
Definition attach_signature (self : self_t) (c : Credentials) : M unit :=
  let! canonical_request := canonical_request self in
  let string_to_sign := string_to_sign self canonical_request in
  let signature := signature self c string_to_sign in
  let! request := get_request in
  let headers_to_sign := headers_to_sign request in
  let l := [ "AWS4-HMAC-SHA256 Credential=" +:+ scope self c;
             "SignedHeaders=" +:+ signed_headers headers_to_sign;
             "Signature=" +:+ signature ] in
  modify_headers (HTTPHeaders.setitem "Authorization" (Py.join ", " l)).

(** The body of [add_auth] once the credentials are known to be present
    and the timestamp has been refreshed. *)
Definition sign_request (self : self_t) (c : Credentials) : M unit :=
  _add_headers_before_signing self c ;;;
  attach_signature self c.

Definition add_auth (now : Clock) (self : self_t) (request : Request)
    : (exn + unit) * self_t * Request :=
  match credentials self with
  | None => (inl NoCredentialsError, self, request)
  | Some c =>
      let self' := set_timestamp (strftime_amz now) self in
      let '(res, request') := sign_request self' c request in
      (res, self', request')
  end.

End Sign.
End SigV4Auth.

(** ** Reading a canonical query string back

    The key of one ['&']-separated entry of a canonical query string (the
    text before its first ['=']), and the keys of all entries in the order
    in which the string lists them. *)

Definition entry_key (entry : string) : string :=
  Py.itemgetter0 (Py.split1 "=" entry).

Definition listed_keys (cqs : string) : list string :=
  map entry_key (Py.split "&" cqs).

(** No encoded key of [params] is a prefix of the encoded form of another
    key. *)
Definition prefix_free_keys (params : gmap string string) : Prop :=
  ∀ k1 k2, is_Some (params !! k1) → is_Some (params !! k2) → k1 ≠ k2 →
    String.prefix (Urllib.quote k1 "-_.~") (Urllib.quote k2 "-_.~") = false.

(** ** The canonical-headers block, described from the request

    Which names the block of a request covers and which values belong to
    a name, read off the request itself: the lowercased names of its
    headers, and ["host"] with the authority of the URL when the request
    has no host header. *)

Definition host_absent (request : Request) : bool :=
  negb (HTTPHeaders.contains "host" (headers request)).

Definition covered_names (request : Request) : list string :=
  Py.sorted
    (remove_dups
       (map (λ nv, Py.lower nv.1) (headers request)
        ++ if host_absent request then ["host"] else [])).

Definition covered_values (request : Request) (k : string) : list string :=
  HTTPHeaders.get_all k (headers request)
  ++ if host_absent request && String.eqb (Py.lower k) "host"
     then [Urllib.netloc (url request)] else [].

(** The block in the words of the specification: one line per distinct
    lowercased name, lines sorted by name, the value part of a line being
    the values of that name sorted and joined with commas. *)
Definition spec_canonical_headers (request : Request) : string :=
  Py.join Py.LF
    (map (λ k, k +:+ ":" +:+ Py.join "," (Py.sorted (covered_values request k)))
         (covered_names request)).

(** Two header lists with the same names in the same order whose values
    differ at most in leading and trailing whitespace. *)
Definition same_up_to_whitespace (h1 h2 : HTTPHeaders.t) : Prop :=
  Forall2 (λ a b, a.1 = b.1 ∧ Py.strip a.2 = Py.strip b.2) h1 h2.

(** ** class HmacV1Auth *)

Module HmacV1Auth.

(** List of Query String Arguments of Interest *)
Definition QSAOfInterest : list string :=
  [ "acl"; "cors"; "defaultObjectAcl"; "location"; "logging";
    "partNumber"; "policy"; "requestPayment"; "torrent";
    "versioning"; "versionId"; "versions"; "website";
    "uploads"; "uploadId"; "response-content-type";
    "response-content-language"; "response-expires";
    "response-cache-control"; "response-content-disposition";
    "response-content-encoding"; "delete"; "lifecycle";
    "tagging"; "restore"; "storageClass"; "notification" ].

Record self_t : Type := mkSelf {
  credentials : option Credentials;
  auth_path : option string
}.

(** [a[0] in self.QSAOfInterest] *)
Definition of_interest (a : list string) : bool :=
  bool_decide (Py.itemgetter0 a ∈ QSAOfInterest).

Definition unquote_v (nv : list string) : list string :=
  match nv with
  | [_] => nv
  | k :: v :: _ => [k; Urllib.unquote v]
  | [] => nv
  end.

(** The list [qsa] of [canonical_resource] after filtering and unquoting,
    before it is sorted. *)

(** The part of the resource before any ['?']: [self.auth_path] when it
    is set (and non-empty), the path of the URL otherwise. *)
Definition resource_path (self : self_t) (split : Urllib.SplitResult) : string :=
  match auth_path self with
  | Some p => if Py.truthy p then p else Urllib.path split
  | None => Urllib.path split
  end.

(** The fields of the query: [[a.split('=', 1) for a in query.split('&')]]. *)
Definition query_fields (query : string) : list (list string) :=
  map (Py.split1 "=") (Py.split "&" query).

(** The list [qsa] of [canonical_resource] after filtering and unquoting,
    before it is sorted. *)
Definition qsa_of_interest (query : string) : list (list string) :=
  map unquote_v (List.filter of_interest (query_fields query)).

Definition canonical_resource (self : self_t)
    (split : Urllib.SplitResult) : string :=
  let buf := resource_path self split in
  if Py.truthy (Urllib.query split) then
    let qsa := qsa_of_interest (Urllib.query split) in
    if Nat.ltb 0 (length qsa) then
      let qsa := Py.sort_on Py.itemgetter0 qsa in
      let qsa := map (Py.join "=") qsa in
      buf +:+ "?" +:+ Py.join "&" qsa
    else buf
  else buf.

Definition interesting_headers : list string :=
  [ "content-md5"; "content-type"; "date" ].

(** What the inner loop of [canonical_standard_headers] appends to [hoi]
    for one interesting header [ih]. *)
Definition standard_values (ih : string) (h : HTTPHeaders.t) : list string :=
  let found :=
    flat_map (λ key,
      if String.eqb (Py.lower key) ih then
        match HTTPHeaders.get key h with
        | Some v => [Py.strip v]
        | None => []
        end
      else []) (HTTPHeaders.iter h) in
  match found with
  | [] => [""]
  | _ => found
  end.

(** [canonical_standard_headers(headers)]: the string, and the headers
    object as the call leaves it (a [Date] header is added when there is
    none). *)
Definition canonical_standard_headers (now : Clock) (h : HTTPHeaders.t)
    : string * HTTPHeaders.t :=
  let h :=
    if HTTPHeaders.contains "Date" h then h
    else HTTPHeaders.setitem "Date" (formatdate_gmt now) h in
  (Py.join Py.LF (flat_map (λ ih, standard_values ih h) interesting_headers), h).

(** The dict [custom_headers] of [canonical_custom_headers]. *)
Definition custom_headers (h : HTTPHeaders.t) : gmap string string :=
  foldl (λ (m : gmap string string) key,
           let lk := Py.lower key in
           match HTTPHeaders.get key h with
           | Some _ =>
               if Py.startswith lk "x-amz-"
               then <[lk := Py.join "," (map Py.strip (HTTPHeaders.get_all key h))]> m
               else m
           | None => m
           end)
        ∅ (HTTPHeaders.iter h).

Definition canonical_custom_headers (h : HTTPHeaders.t) : string :=
  let custom_headers := custom_headers h in
  let sorted_header_keys := Py.sorted (keys custom_headers) in
  Py.join Py.LF
    (map (λ key, key +:+ ":" +:+ custom_headers !!! key) sorted_header_keys).

Definition canonical_string (now : Clock) (self : self_t) (method : string)
    (split : Urllib.SplitResult) (h : HTTPHeaders.t) : string * HTTPHeaders.t :=
  let cs := Py.upper method +:+ Py.LF in
  let '(std, h) := canonical_standard_headers now h in
  let cs := cs +:+ std +:+ Py.LF in
  let custom := canonical_custom_headers h in
  let cs := if Py.truthy custom then cs +:+ custom +:+ Py.LF else cs in
  (cs +:+ canonical_resource self split, h).

Section Sign.
Context `{Hashlib}.

Definition sign_string (c : Credentials) (string_to_sign : string) : string :=
  Py.strip (Base64.encodestring (hmac_sha1 (secret_key c) string_to_sign)).

Definition get_signature (now : Clock) (self : self_t) (c : Credentials)
    (method : string) (split : Urllib.SplitResult) (h : HTTPHeaders.t)
    : string * HTTPHeaders.t :=
  let h :=
    match token_truthy c with
    | Some t => HTTPHeaders.setitem "x-amz-security-token" t h
    | None => h
    end in
  let '(string_to_sign, h) := canonical_string now self method split h in
  (sign_string c string_to_sign, h).

Definition add_auth (now : Clock) (self : self_t) : M unit :=
  match credentials self with
  | None => raise NoCredentialsError
  | Some c => λ request,
      let split := url request in
      let '(signature, h) :=
        get_signature now self c (method request) split (headers request) in
      (inr tt,
       with_headers
         (HTTPHeaders.setitem "Authorization"
            ("AWS " +:+ access_key c +:+ ":" +:+ signature) h)
         request)
  end.

End Sign.
End HmacV1Auth.

(** ** The registry and the signer objects *)

Inductive AuthClass : Type :=
| SigV2Auth_cls
| SigV3Auth_cls
| SigV4Auth_cls
| S3SigV4Auth_cls
| HmacV1Auth_cls.

(** [AUTH_TYPE_MAPS] *)
Definition AUTH_TYPE_MAPS : gmap string AuthClass :=
  {[ "v2" := SigV2Auth_cls;
     "v4" := SigV4Auth_cls;
     "v3" := SigV3Auth_cls;
     "v3https" := SigV3Auth_cls;
     "s3" := HmacV1Auth_cls;
     "s3v4" := S3SigV4Auth_cls ]}.

(** A signer object of one of the registered classes. *)
Inductive Signer : Type :=
| SigV2 (self : SigV2Auth.self_t)
| SigV3 (self : SigV3Auth.self_t)
| SigV4 (self : SigV4Auth.self_t)
| HmacV1 (self : HmacV1Auth.self_t).

(** [cls(credentials, service_name, region_name)] *)
Definition construct (now : Clock) (c : AuthClass) (creds : option Credentials)
    (service_name region_name : string) : Signer :=
  match c with
  | SigV2Auth_cls => SigV2 (SigV2Auth.mkSelf creds)
  | SigV3Auth_cls => SigV3 (SigV3Auth.mkSelf creds)
  | SigV4Auth_cls =>
      SigV4 (SigV4Auth.mkSelf SigV4Auth.Plain creds (strftime_amz now)
                              region_name service_name)
  | S3SigV4Auth_cls =>
      SigV4 (SigV4Auth.mkSelf SigV4Auth.S3 creds (strftime_amz now)
                              region_name service_name)
  | HmacV1Auth_cls => HmacV1 (HmacV1Auth.mkSelf creds None)
  end.

(** [signer.credentials] *)
Definition signer_credentials (s : Signer) : option Credentials :=
  match s with
  | SigV2 self => SigV2Auth.credentials self
  | SigV3 self => SigV3Auth.credentials self
  | SigV4 self => SigV4Auth.credentials self
  | HmacV1 self => HmacV1Auth.credentials self
  end.

(** [signer.add_auth(request)]: the outcome (an exception or a normal
    return), the signer object and the request as the call leaves them. *)
Definition add_auth `{Hashlib} `{BotocoreUtils} (now : Clock) (s : Signer)
    (request : Request) : (exn + unit) * Signer * Request :=
  match s with
  | SigV2 self =>
      let '(res, request') := SigV2Auth.add_auth now self request in
      (res, s, request')
  | SigV3 self =>
      let '(res, request') := SigV3Auth.add_auth now self request in
      (res, s, request')
  | SigV4 self =>
      let '(res, self', request') := SigV4Auth.add_auth now self request in
      (res, SigV4 self', request')
  | HmacV1 self =>
      let '(res, request') := HmacV1Auth.add_auth now self request in
      (res, s, request')
  end.

(** ** Sample data

    A symbolic instance of the hash interface, in which a digest is the
    text of the call that produced it, and sample credentials, clock and
    requests on which the definitions above can be evaluated. *)

Module Sample.

Definition hashes : Hashlib := {|
  sha256 data := "sha256(" +:+ data +:+ ")";
  hmac_sha256 key msg := "hmac-sha256(" +:+ key +:+ "," +:+ msg +:+ ")";
  hmac_sha1 key msg := "hmac-sha1(" +:+ key +:+ "," +:+ msg +:+ ")"
|}.

Definition utils : BotocoreUtils := {| normalize_url_path p := p |}.

Definition creds : Credentials := mkCredentials "AKIDEXAMPLE" "secret" None.

Definition now : Clock :=
  mkClock "2011-09-09T23:36:00" "20110909T233600Z"
          "Fri, 09 Sep 2011 23:36:00 GMT".

Definition split (path query : string) : Urllib.SplitResult :=
  Urllib.mkSplit "https" "host.foo.com" path query "".

Definition request (h : HTTPHeaders.t) (b : Body) : Request :=
  mkRequest "GET" (split "/" "") h ∅ ∅ ∅ b.

End Sample.

(** * Properties *)

(** ** The built-ins on sample inputs *)

Example py_split_examples :
  Py.split "&" "a=1&&b" = ["a=1"; ""; "b"]
  ∧ Py.split "&" "a&" = ["a"; ""]
  ∧ Py.split1 "=" "k=v=w" = ["k"; "v=w"]
  ∧ Py.split1 "=" "k" = ["k"]
  ∧ Py.split1 "=" "=v" = [""; "v"].
Proof. repeat split; reflexivity. Qed.

Example py_strip_examples :
  Py.strip "  a b  " = "a b"
  ∧ Py.strip (" x" +:+ Py.LF) = "x"
  ∧ Py.strip "   " = "".
Proof. repeat split; reflexivity. Qed.

Example py_sorted_example :
  Py.sorted ["b"; "a1"; "a"; "B"; "a=1"; "a1=2"]
  = ["B"; "a"; "a1"; "a1=2"; "a=1"; "b"].
Proof. reflexivity. Qed.

Example py_sort_on_stable_example :
  Py.sort_on Py.itemgetter0 [["b"; "1"]; ["a"; "2"]; ["b"; "0"]; ["a"; "1"]]
  = [["a"; "2"]; ["a"; "1"]; ["b"; "1"]; ["b"; "0"]].
Proof. reflexivity. Qed.

Example py_case_examples :
  Py.lower "X-Amz-Date" = "x-amz-date" ∧ Py.upper "get" = "GET".
Proof. split; reflexivity. Qed.

Example quote_examples :
  Urllib.quote "a b/c~d-e_f.g%" "" = "a%20b%2Fc%7Ed-e_f.g%25"
  ∧ Urllib.quote "a b/c~d-e_f.g%" "-_~" = "a%20b%2Fc~d-e_f.g%25"
  ∧ Urllib.quote "k=v&w" "-_.~" = "k%3Dv%26w".
Proof. repeat split; reflexivity. Qed.

Example unquote_examples :
  Urllib.unquote "a%20b%2fc%7E" = "a b/c~"
  ∧ Urllib.unquote "100%" = "100%"
  ∧ Urllib.unquote "%zz%4" = "%zz%4"
  ∧ Urllib.unquote "%%41" = "%A".
Proof. repeat split; reflexivity. Qed.

Example base64_examples :
  Base64.b64encode "Man" = "TWFu"
  ∧ Base64.b64encode "Ma" = "TWE="
  ∧ Base64.b64encode "M" = "TQ=="
  ∧ Base64.encodestring "hello" = "aGVsbG8=" +:+ Py.LF
  ∧ Base64.hexlify "hello" = "68656c6c6f".
Proof. repeat split; reflexivity. Qed.

Example headers_examples :
  let h := [("Date", "d1"); ("X-Foo", "a"); ("x-foo", "b")] in
  HTTPHeaders.contains "x-FOO" h = true
  ∧ HTTPHeaders.get "x-foo" h = Some "a"
  ∧ HTTPHeaders.get_all "X-FOO" h = ["a"; "b"]
  ∧ HTTPHeaders.setitem "X-Foo" "c" h
    = [("Date", "d1"); ("X-Foo", "a"); ("x-foo", "b"); ("X-Foo", "c")]
  ∧ HTTPHeaders.delitem "x-foo" h = [("Date", "d1")]
  ∧ HTTPHeaders.get "Missing" h = None.
Proof. repeat split; reflexivity. Qed.

(** ** Strings *)

#[local] Arguments String.append !_ _ / : simpl nomatch.

Lemma app_assoc_str (a b c : string) : (a +:+ b) +:+ c = a +:+ (b +:+ c).
Proof. induction a as [|x a IH]; simpl; [done|]. by rewrite IH. Qed.

Lemma app_empty_r (a : string) : a +:+ "" = a.
Proof. induction a as [|x a IH]; simpl; [done|]. by rewrite IH. Qed.

Lemma length_app_str (a b : string) :
  String.length (a +:+ b) = String.length a + String.length b.
Proof. induction a as [|x a IH]; simpl; [done|]. by rewrite IH. Qed.

Lemma length_drop (p : nat) (s : string) :
  String.length (Py.drop p s) = String.length s - p.
Proof. revert s. induction p as [|p IH]; intros [|c s]; simpl; auto with lia. Qed.

Lemma length_takeN (s : string) (n : N) :
  String.length (Py.takeN n s) = Nat.min (N.to_nat n) (String.length s).
Proof.
  revert n. induction s as [|c s IH]; intros n; simpl; [lia|].
  destruct (N.eqb_spec n 0) as [->|Hn]; simpl; [done|].
  rewrite IH. lia.
Qed.

Lemma drop_drop (p q : nat) (s : string) :
  Py.drop q (Py.drop p s) = Py.drop (p + q) s.
Proof.
  revert s. induction p as [|p IH]; intros s; simpl; [done|].
  destruct s as [|c s]; [by destruct q|]. apply IH.
Qed.

Lemma takeN_drop (n : N) (s : string) :
  Py.takeN n s +:+ Py.drop (String.length (Py.takeN n s)) s = s.
Proof.
  revert n. induction s as [|c s IH]; intros n; simpl; [done|].
  destruct (n =? 0)%N; simpl; [done|]. by rewrite IH.
Qed.

Lemma drop_all (p : nat) (s : string) :
  String.length s ≤ p → Py.drop p s = "".
Proof.
  revert s. induction p as [|p IH]; intros [|c s]; simpl; try done; try lia.
  intros ?. apply IH. lia.
Qed.

Lemma lower_char_idem (c : ascii) :
  Py.lower_char (Py.lower_char c) = Py.lower_char c.
Proof. by destruct c as [[] [] [] [] [] [] [] []]. Qed.

Lemma lower_idem (s : string) : Py.lower (Py.lower s) = Py.lower s.
Proof.
  induction s as [|c s IH]; simpl; [done|].
  by rewrite lower_char_idem, IH.
Qed.

(** ** Sorting *)

Section SortFacts.
Context {A : Type} (key : A → string).

#[local] Instance key_le_trans : Transitive (Py.key_le key).
Proof. intros a b c. unfold Py.key_le. apply transitivity. Qed.

Lemma insert_on_Permutation (x : A) (l : list A) :
  Py.insert_on key x l ≡ₚ x :: l.
Proof.
  induction l as [|y l IH]; simpl; [done|].
  destruct (String.leb (key x) (key y)); [done|].
  rewrite IH. apply Permutation_swap.
Qed.

Lemma sort_on_Permutation (l : list A) : Py.sort_on key l ≡ₚ l.
Proof.
  induction l as [|x l IH]; simpl; [done|].
  by rewrite insert_on_Permutation, IH.
Qed.

Lemma insert_on_StronglySorted (x : A) (l : list A) :
  StronglySorted (Py.key_le key) l → StronglySorted (Py.key_le key) (Py.insert_on key x l).
Proof.
  induction 1 as [|y l Hl IH Hy]; simpl.
  { repeat constructor. }
  destruct (String.leb (key x) (key y)) eqn:E.
  - constructor; [by constructor|].
    assert (Py.key_le key x y) as Hxy by (unfold Py.key_le, String.le; by rewrite E).
    constructor; [done|].
    eapply Forall_impl; [exact Hy|]. intros z ?. by transitivity y.
  - constructor; [done|].
    rewrite insert_on_Permutation. constructor; [|done].
    destruct (total String.le (key x) (key y)) as [Hle|Hle]; [|done].
    unfold String.le in Hle. rewrite E in Hle. done.
Qed.

Lemma sort_on_StronglySorted (l : list A) :
  StronglySorted (Py.key_le key) (Py.sort_on key l).
Proof.
  induction l as [|x l IH]; simpl; [constructor|].
  by apply insert_on_StronglySorted.
Qed.

(** Stability: among the elements of one key, the order of the input is
    kept. *)
Lemma insert_on_stable (k : string) (x : A) (l : list A) :
  List.filter (λ a, String.eqb (key a) k) (Py.insert_on key x l)
  = List.filter (λ a, String.eqb (key a) k) (x :: l).
Proof.
  induction l as [|y l IH]; [done|].
  cbn [Py.insert_on]. destruct (String.leb (key x) (key y)) eqn:E; [done|].
  cbn [List.filter] in *. rewrite IH.
  destruct (String.eqb_spec (key x) k) as [Hx|Hx];
    destruct (String.eqb_spec (key y) k) as [Hy|Hy]; try done.
  exfalso. rewrite Hx, <- Hy in E.
  assert (String.le (key y) (key y)) as Hr by reflexivity.
  unfold String.le in Hr. by rewrite E in Hr.
Qed.

Lemma sort_on_stable (k : string) (l : list A) :
  List.filter (λ a, String.eqb (key a) k) (Py.sort_on key l)
  = List.filter (λ a, String.eqb (key a) k) l.
Proof.
  induction l as [|x l IH]; [done|].
  cbn [Py.sort_on foldr]. rewrite insert_on_stable.
  cbn [List.filter]. fold (Py.sort_on key l). by rewrite IH.
Qed.

End SortFacts.

Lemma sorted_StronglySorted (l : list string) :
  StronglySorted String.le (Py.sorted l).
Proof. apply (sort_on_StronglySorted id). Qed.

Lemma sorted_Permutation (l : list string) : Py.sorted l ≡ₚ l.
Proof. apply sort_on_Permutation. Qed.

(** [sorted] does not depend on the order in which a set or a dict hands
    over its elements. *)
Lemma sorted_unique (l1 l2 : list string) :
  l1 ≡ₚ l2 → Py.sorted l1 = Py.sorted l2.
Proof.
  intros Hp. apply (StronglySorted_unique String.le);
    [apply sorted_StronglySorted..|].
  by rewrite !sorted_Permutation.
Qed.

Lemma sorted_singleton (x : string) : Py.sorted [x] = [x].
Proof. done. Qed.

Lemma sorted_elem_of (x : string) (l : list string) : x ∈ Py.sorted l ↔ x ∈ l.
Proof. by rewrite sorted_Permutation. Qed.

(** ** HTTPHeaders *)

Lemma contains_count (name : string) (h : HTTPHeaders.t) :
  HTTPHeaders.contains name h = negb (Nat.eqb (HTTPHeaders.count name h) 0).
Proof.
  unfold HTTPHeaders.contains, HTTPHeaders.count, HTTPHeaders.get_all.
  induction h as [|kv h IH]; simpl; [done|].
  destruct (HTTPHeaders.matches name kv); simpl; [done|apply IH].
Qed.

Lemma get_all_setitem (name n v : string) (h : HTTPHeaders.t) :
  HTTPHeaders.get_all name (HTTPHeaders.setitem n v h)
  = HTTPHeaders.get_all name h
    ++ (if HTTPHeaders.matches name (n, v) then [v] else []).
Proof.
  unfold HTTPHeaders.get_all, HTTPHeaders.setitem.
  rewrite List.filter_app, map_app. simpl.
  by destruct (HTTPHeaders.matches name (n, v)).
Qed.

Lemma count_setitem (name n v : string) (h : HTTPHeaders.t) :
  HTTPHeaders.count name (HTTPHeaders.setitem n v h)
  = HTTPHeaders.count name h
    + (if HTTPHeaders.matches name (n, v) then 1 else 0).
Proof.
  unfold HTTPHeaders.count. rewrite get_all_setitem, length_app.
  by destruct (HTTPHeaders.matches name (n, v)).
Qed.

Lemma count_delitem_same (name : string) (h : HTTPHeaders.t) :
  HTTPHeaders.count name (HTTPHeaders.delitem name h) = 0.
Proof.
  unfold HTTPHeaders.count, HTTPHeaders.get_all, HTTPHeaders.delitem.
  induction h as [|kv h IH]; simpl; [done|].
  destruct (HTTPHeaders.matches name kv) eqn:E; simpl; [done|].
  by rewrite E.
Qed.

Lemma count_zero_not_contains (name : string) (h : HTTPHeaders.t) :
  HTTPHeaders.contains name h = false → HTTPHeaders.count name h = 0.
Proof.
  rewrite contains_count. by destruct (HTTPHeaders.count name h).
Qed.

Lemma get_all_not_contains (name : string) (h : HTTPHeaders.t) :
  HTTPHeaders.contains name h = false → HTTPHeaders.get_all name h = [].
Proof.
  intros Hc. apply count_zero_not_contains in Hc.
  unfold HTTPHeaders.count in Hc. by destruct (HTTPHeaders.get_all name h).
Qed.

Lemma contains_setitem (name n v : string) (h : HTTPHeaders.t) :
  HTTPHeaders.contains name (HTTPHeaders.setitem n v h)
  = HTTPHeaders.contains name h || HTTPHeaders.matches name (n, v).
Proof.
  unfold HTTPHeaders.contains, HTTPHeaders.setitem.
  rewrite existsb_app. simpl. by rewrite orb_false_r.
Qed.

Lemma contains_delitem (name n : string) (h : HTTPHeaders.t) :
  HTTPHeaders.contains name (HTTPHeaders.delitem n h)
  = existsb (λ kv, HTTPHeaders.matches name kv && negb (HTTPHeaders.matches n kv)) h.
Proof.
  unfold HTTPHeaders.contains, HTTPHeaders.delitem.
  induction h as [|kv h IH]; simpl; [done|].
  destruct (HTTPHeaders.matches n kv); simpl.
  - by rewrite IH, andb_false_r.
  - by rewrite IH, andb_true_r.
Qed.

(** Two names that differ after lowercasing: deleting one leaves the
    other's pairs alone. *)
Lemma matches_names (name kvn : string) (v : string) :
  HTTPHeaders.matches name (kvn, v) = String.eqb (Py.lower kvn) (Py.lower name).
Proof. done. Qed.

Lemma matches_trans_false (a b : string) (kv : string * string) :
  String.eqb (Py.lower a) (Py.lower b) = false →
  HTTPHeaders.matches a kv = true → HTTPHeaders.matches b kv = false.
Proof.
  unfold HTTPHeaders.matches. intros Hab Ha.
  apply String.eqb_eq in Ha. apply String.eqb_neq in Hab.
  apply String.eqb_neq. congruence.
Qed.

Lemma contains_delitem_other (name n : string) (h : HTTPHeaders.t) :
  String.eqb (Py.lower name) (Py.lower n) = false →
  HTTPHeaders.contains name (HTTPHeaders.delitem n h)
  = HTTPHeaders.contains name h.
Proof.
  intros Hne. rewrite contains_delitem. unfold HTTPHeaders.contains.
  induction h as [|kv h IH]; simpl; [done|]. rewrite IH. f_equal.
  destruct (HTTPHeaders.matches name kv) eqn:E; [|done].
  by rewrite (matches_trans_false name n kv Hne E).
Qed.

Lemma get_setitem_fresh (name v : string) (h : HTTPHeaders.t) :
  HTTPHeaders.contains name h = false →
  HTTPHeaders.get name (HTTPHeaders.setitem name v h) = Some v.
Proof.
  unfold HTTPHeaders.contains, HTTPHeaders.get, HTTPHeaders.setitem.
  induction h as [|kv h IH]; simpl.
  - intros _. unfold HTTPHeaders.matches. simpl. by rewrite String.eqb_refl.
  - destruct (HTTPHeaders.matches name kv); [done|]. apply IH.
Qed.

Lemma contains_get (name : string) (h : HTTPHeaders.t) :
  HTTPHeaders.contains name h = true → is_Some (HTTPHeaders.get name h).
Proof.
  unfold HTTPHeaders.contains, HTTPHeaders.get.
  induction h as [|kv h IH]; simpl; [done|].
  destruct (HTTPHeaders.matches name kv); simpl; [by eexists|apply IH].
Qed.

(** A name that is already present keeps its first value when a pair is
    appended. *)
Lemma HTTPHeaders_get_setitem_old (name n v : string) (h : HTTPHeaders.t) :
  HTTPHeaders.contains name h = true →
  HTTPHeaders.get name (HTTPHeaders.setitem n v h) = HTTPHeaders.get name h.
Proof.
  unfold HTTPHeaders.contains, HTTPHeaders.get, HTTPHeaders.setitem.
  induction h as [|kv h IH]; simpl; [done|].
  destruct (HTTPHeaders.matches name kv); simpl; [done|apply IH].
Qed.

(** ** The state-and-exception monad *)

Lemma bind_ret_l {A B : Type} (a : A) (k : A → M B) (r : Request) :
  bind (ret a) k r = k a r.
Proof. done. Qed.

Lemma bind_assoc {A B C : Type} (m : M A) (k : A → M B) (g : B → M C) (r : Request) :
  bind (bind m k) g r = bind m (λ a, bind (k a) g) r.
Proof. unfold bind. by destruct (m r) as [[e|a] r']. Qed.

Lemma with_headers_headers (h : HTTPHeaders.t) (r : Request) :
  headers (with_headers h r) = h.
Proof. done. Qed.

Lemma with_body_same (r : Request) : with_body (body r) r = r.
Proof. by destruct r. Qed.

(** ** Missing credentials *)

Lemma construct_no_credentials (now : Clock) (c : AuthClass)
    (service_name region_name : string) :
  signer_credentials (construct now c None service_name region_name) = None.
Proof. by destruct c. Qed.

(** C9.  For every signer variant whose credentials object is None,
    [add_auth] raises NoCredentialsError and leaves both the signer and the
    request (headers, params, body) exactly as they were. *)
Theorem add_auth_no_credentials `{Hashlib} `{BotocoreUtils}
    (now : Clock) (s : Signer) (request : Request) :
  signer_credentials s = None →
  add_auth now s request = (inl NoCredentialsError, s, request).
Proof.
  destruct s as [self|self|self|self]; simpl; intros Hc.
  - unfold SigV2Auth.add_auth. by rewrite Hc.
  - unfold SigV3Auth.add_auth. by rewrite Hc.
  - unfold SigV4Auth.add_auth. by rewrite Hc.
  - unfold HmacV1Auth.add_auth. by rewrite Hc.
Qed.

Lemma add_auth_no_credentials_witness :
  add_auth (H := Sample.hashes) (H0 := Sample.utils) Sample.now
    (construct Sample.now S3SigV4Auth_cls None "s3" "us-east-1")
    (Sample.request [("Content-Type", "text/plain")] (BodyStr "payload"))
  = (inl NoCredentialsError,
     construct Sample.now S3SigV4Auth_cls None "s3" "us-east-1",
     Sample.request [("Content-Type", "text/plain")] (BodyStr "payload")).
Proof.
  apply (add_auth_no_credentials (H := Sample.hashes) (H0 := Sample.utils)).
  reflexivity.
Defined.

(** ** The Authorization header on a second signing *)

Lemma hmacv1_headers_after `{Hashlib} (now : Clock) (ap : option string)
    (c : Credentials) (request : Request) :
  ∃ sig extra,
    HmacV1Auth.add_auth now (HmacV1Auth.mkSelf (Some c) ap) request
    = (inr tt,
       with_headers
         (headers request ++ extra
          ++ [("Authorization", "AWS " +:+ access_key c +:+ ":" +:+ sig)])
         request)
    ∧ HTTPHeaders.count "Authorization" extra = 0.
Proof.
  unfold HmacV1Auth.add_auth, HmacV1Auth.get_signature,
    HmacV1Auth.canonical_string, HmacV1Auth.canonical_standard_headers.
  simpl. unfold HTTPHeaders.setitem.
  destruct (token_truthy c) as [t|].
  - destruct (HTTPHeaders.contains "Date" _).
    + eexists _, [("x-amz-security-token", t)]. split; [|done].
      by rewrite <- (assoc_L (++)).
    + eexists _, [("x-amz-security-token", t); ("Date", formatdate_gmt now)].
      split; [|done]. by rewrite <- !(assoc_L (++)).
  - destruct (HTTPHeaders.contains "Date" _).
    + eexists _, []. split; [|done]. done.
    + eexists _, [("Date", formatdate_gmt now)].
      split; [|done]. by rewrite <- !(assoc_L (++)).
Qed.

(** C1.  HmacV1Auth.add_auth never removes an Authorization header: it
    appends the new one after those already present, so a request that is
    signed a second time carries one Authorization header more than before
    (two after a retry), the stale one first. *)
Theorem hmacv1_add_auth_appends_authorization `{Hashlib} (now : Clock)
    (ap : option string) (c : Credentials) (request : Request) :
  ∃ request',
    HmacV1Auth.add_auth now (HmacV1Auth.mkSelf (Some c) ap) request
    = (inr tt, request')
    ∧ headers request `prefix_of` headers request'
    ∧ HTTPHeaders.count "Authorization" (headers request')
      = S (HTTPHeaders.count "Authorization" (headers request)).
Proof.
  destruct (hmacv1_headers_after now ap c request) as (sig & extra & -> & Hx).
  eexists. split; [done|]. simpl. split.
  - by eexists.
  - unfold HTTPHeaders.count, HTTPHeaders.get_all in *.
    rewrite !List.filter_app, !map_app, !length_app, Hx. simpl. lia.
Qed.

Example hmacv1_resign_two_authorization_headers :
  let request := Sample.request [("Authorization", "AWS AKIDEXAMPLE:stale")] BodyNone in
  let signer := HmacV1 (HmacV1Auth.mkSelf (Some Sample.creds) None) in
  let request' := (add_auth (H := Sample.hashes) (H0 := Sample.utils)
                            Sample.now signer request).2 in
  HTTPHeaders.get_all "Authorization" (headers request')
  = [ "AWS AKIDEXAMPLE:stale";
      "AWS AKIDEXAMPLE:aG1hYy1zaGExKHNlY3JldCxHRVQKCgpGcmksIDA5IFNlcCAyMDExIDIzOjM2OjAwIEdNVAovKQ==" ].
Proof. vm_compute. reflexivity. Qed.

(** The query and header-date signers do not write an Authorization
    header, and leave those of the request alone. *)
Lemma sigv2_add_auth_headers_unchanged `{Hashlib} (now : Clock)
    (c : Credentials) (r : Request) :
  ∃ r', SigV2Auth.add_auth now (SigV2Auth.mkSelf (Some c)) r = (inr tt, r')
        ∧ headers r' = headers r ∧ body r' = body r.
Proof.
  unfold SigV2Auth.add_auth. simpl.
  destruct (dict_truthy (data r)); by eexists.
Qed.

Lemma sigv3_add_auth_authorization_untouched `{Hashlib} (now : Clock)
    (c : Credentials) (r : Request) :
  ∃ r', SigV3Auth.add_auth now (SigV3Auth.mkSelf (Some c)) r = (inr tt, r')
        ∧ HTTPHeaders.get_all "Authorization" (headers r')
          = HTTPHeaders.get_all "Authorization" (headers r).
Proof.
  unfold SigV3Auth.add_auth, bind, get_request, modify_headers, ret, raise.
  simpl. destruct r as [m u h ps p d b]. simpl.
  destruct (HTTPHeaders.contains "Date" h) eqn:Ed; simpl.
  - destruct (token_truthy c) as [t|]; simpl.
    + rewrite (HTTPHeaders_get_setitem_old "Date" _ _ h Ed).
      destruct (contains_get _ _ Ed) as [dv ->]. simpl.
      eexists. split; [done|]. simpl.
      by rewrite !get_all_setitem, !app_nil_r.
    + destruct (contains_get _ _ Ed) as [dv ->]. simpl.
      eexists. split; [done|]. simpl.
      by rewrite !get_all_setitem, !app_nil_r.
  - destruct (token_truthy c) as [t|]; simpl.
    + rewrite (HTTPHeaders_get_setitem_old "Date" _ _ (HTTPHeaders.setitem "Date" (formatdate_gmt now) h))
        by (rewrite contains_setitem; by rewrite orb_true_r).
      rewrite get_setitem_fresh by done. simpl.
      eexists. split; [done|]. simpl.
      by rewrite !get_all_setitem, !app_nil_r.
    + rewrite get_setitem_fresh by done. simpl.
      eexists. split; [done|]. simpl.
      by rewrite !get_all_setitem, !app_nil_r.
Qed.

(** ** SigV4Auth: the steps of [add_auth] *)

Section SigV4Facts.
Context `{Hashlib} `{BotocoreUtils}.

Lemma base_add_headers_run (self : SigV4Auth.self_t) (c : Credentials)
    (r : Request) :
  SigV4Auth.base_add_headers_before_signing self c r
  = (inr tt, with_headers (SigV4Auth.prepared_headers self c (headers r)) r).
Proof.
  unfold SigV4Auth.base_add_headers_before_signing, SigV4Auth.prepared_headers.
  unfold bind, get_request, modify_headers, ret.
  destruct r as [m u h ps p d b]; simpl.
  destruct (HTTPHeaders.contains "Authorization" h); simpl;
    (destruct (HTTPHeaders.contains "Date" _); simpl;
     destruct (token_truthy c); reflexivity).
Qed.

Lemma prepared_headers_no_authorization (self : SigV4Auth.self_t)
    (c : Credentials) (h : HTTPHeaders.t) :
  HTTPHeaders.count "Authorization" (SigV4Auth.prepared_headers self c h) = 0.
Proof.
  unfold SigV4Auth.prepared_headers.
  assert (HTTPHeaders.count "Authorization"
            (if HTTPHeaders.contains "Authorization" h
             then HTTPHeaders.delitem "Authorization" h else h) = 0) as H0'.
  { destruct (HTTPHeaders.contains "Authorization" h) eqn:E.
    - apply count_delitem_same.
    - by apply count_zero_not_contains. }
  destruct (token_truthy c); destruct (HTTPHeaders.contains "Date" _);
    rewrite ?count_setitem, ?H0'; done.
Qed.

Lemma prepared_headers_contains_sha (self : SigV4Auth.self_t)
    (c : Credentials) (h : HTTPHeaders.t) :
  HTTPHeaders.contains "X-Amz-Content-SHA256" (SigV4Auth.prepared_headers self c h)
  = HTTPHeaders.contains "X-Amz-Content-SHA256" h.
Proof.
  unfold SigV4Auth.prepared_headers.
  assert (HTTPHeaders.contains "X-Amz-Content-SHA256"
            (if HTTPHeaders.contains "Authorization" h
             then HTTPHeaders.delitem "Authorization" h else h)
          = HTTPHeaders.contains "X-Amz-Content-SHA256" h) as H0'.
  { destruct (HTTPHeaders.contains "Authorization" h); [|done].
    by apply contains_delitem_other. }
  destruct (token_truthy c); destruct (HTTPHeaders.contains "Date" _);
    rewrite ?contains_setitem, ?H0'; simpl; by rewrite ?orb_false_r.
Qed.

(** [payload] only ever touches the body of the request. *)
Lemma payload_frame (r : Request) :
  ∃ b, (SigV4Auth.payload r).2 = with_body b r.
Proof.
  unfold SigV4Auth.payload.
  destruct (body_truthy (body r) && hasattr_seek (body r)).
  - destruct (body r) as [|s|u|f] eqn:Eb;
      try (exists (body r); by rewrite with_body_same).
    destruct (File.tell f); [exists (body r); by rewrite with_body_same|].
    destruct (SigV4Auth.read_loop _ _ _) as [fed f1].
    destruct (File.seek _ _); by eexists.
  - exists (body r). rewrite with_body_same.
    destruct (body_truthy (body r)); [|done].
    by destruct (body_encode (body r)).
Qed.

Lemma payload_headers (r : Request) :
  headers (SigV4Auth.payload r).2 = headers r.
Proof. destruct (payload_frame r) as [b ->]. done. Qed.

End SigV4Facts.

(** ** The read loop of [payload] *)

Lemma at_pos_at_pos (p q : nat) (f : Stream) :
  File.at_pos q (File.at_pos p f) = File.at_pos q f.
Proof. done. Qed.

Lemma at_pos_same (f : Stream) : File.at_pos (pos f) f = f.
Proof. by destruct f. Qed.

Lemma read_loop_at_pos (n : N) (f : Stream) (acc : string) :
  ∃ p, (SigV4Auth.read_loop n f acc).2 = File.at_pos p f.
Proof.
  funelim (SigV4Auth.read_loop n f acc).
  - destruct H as [p Hp]. rewrite Hp. by eexists.
  - by eexists.
Qed.

Lemma takeN_empty (n : N) (s : string) :
  (0 < n)%N → Py.takeN n s = "" → s = "".
Proof.
  destruct s as [|c s]; [done|]. simpl.
  destruct (N.eqb_spec n 0) as [->|]; [lia|done].
Qed.

(** Whatever the buffer size, the loop feeds the checksum every byte from
    the read position to the end of the stream, in order. *)
Lemma read_loop_all (n : N) (f : Stream) (acc : string) :
  (0 < n)%N → (SigV4Auth.read_loop n f acc).1 = acc +:+ File.rest f.
Proof.
  intros Hn. funelim (SigV4Auth.read_loop n f acc).
  - rewrite H by done. rewrite app_assoc_str. f_equal.
    unfold File.read, File.rest. simpl.
    rewrite <- drop_drop. apply takeN_drop.
  - clear H Heqcall. simpl. unfold File.read in e. simpl in e.
    destruct (Py.takeN n (File.rest f)) eqn:Et; [|done].
    apply takeN_empty in Et; [|done]. by rewrite Et, app_empty_r.
Qed.

Lemma read_loop_chunks_example :
  SigV4Auth.read_loop 4 (mkStream "hello world" 2 true true) ""
  = ("llo world", mkStream "hello world" 11 true true).
Proof. vm_compute. reflexivity. Qed.

Section PayloadFacts.
Context `{Hashlib} `{BotocoreUtils}.

(** A truthy body with a working [seek]: the digest covers the bytes from
    the read position on, and the request, stream position included, is
    left as it was found. *)
Lemma payload_seekable (r : Request) (data : string) (p : nat) :
  body r = BodyStream (mkStream data p true true) →
  SigV4Auth.payload r
  = (inr (SigV4Auth.sha256_hexdigest (Py.drop p data)), r).
Proof.
  intros Hb. unfold SigV4Auth.payload. rewrite Hb. simpl.
  pose proof (read_loop_all PAYLOAD_BUFFER (mkStream data p true true) "") as Hall.
  destruct (read_loop_at_pos PAYLOAD_BUFFER (mkStream data p true true) "")
    as [q Hq].
  destruct (SigV4Auth.read_loop _ _ _) as [fed f1]. simpl in *.
  rewrite Hall by done. subst f1. unfold File.seek, File.at_pos, File.rest.
  simpl. by rewrite <- Hb, with_body_same.
Qed.

(** A body without a [seek] attribute is treated as a string; a stream
    object has no [encode]. *)
Lemma payload_no_seek_attr (r : Request) (f : Stream) :
  body r = BodyStream f → has_seek f = false →
  SigV4Auth.payload r = (inl AttributeError, r).
Proof.
  intros Hb Hs. unfold SigV4Auth.payload. rewrite Hb. simpl. by rewrite Hs.
Qed.

(** A body with a [seek] attribute on which [tell()] fails. *)
Lemma payload_tell_fails (r : Request) (f : Stream) :
  body r = BodyStream f → has_seek f = true → seekable f = false →
  SigV4Auth.payload r = (inl IOError, r).
Proof.
  intros Hb Hs Ht. unfold SigV4Auth.payload. rewrite Hb. simpl. rewrite Hs.
  unfold File.tell. by rewrite Ht.
Qed.

Lemma payload_no_body (r : Request) :
  body_truthy (body r) = false →
  SigV4Auth.payload r = (inr EMPTY_SHA256_HASH, r).
Proof. intros Hb. unfold SigV4Auth.payload. by rewrite Hb. Qed.

End PayloadFacts.

Section SigV4Runs.
Context `{Hashlib} `{BotocoreUtils}.

Lemma body_checksum_run (r : Request) :
  SigV4Auth.body_checksum r
  = if HTTPHeaders.contains "X-Amz-Content-SHA256" (headers r) then
      match HTTPHeaders.get "X-Amz-Content-SHA256" (headers r) with
      | Some v => (inr v, r)
      | None => (inl AttributeError, r)
      end
    else SigV4Auth.payload r.
Proof.
  unfold SigV4Auth.body_checksum, bind, get_request.
  destruct (HTTPHeaders.contains _ _); [|done].
  by destruct (HTTPHeaders.get _ _).
Qed.

(** When [payload] succeeds without changing the request, so does the
    checksum step of [canonical_request]. *)
Lemma body_checksum_pure (r : Request) (d : string) :
  SigV4Auth.payload r = (inr d, r) →
  ∃ v, SigV4Auth.body_checksum r = (inr v, r).
Proof.
  intros Hp. rewrite body_checksum_run.
  destruct (HTTPHeaders.contains _ _) eqn:E; [|by eexists].
  destruct (contains_get _ _ E) as [v ->]. by eexists.
Qed.

Lemma canonical_request_parts_run (self : SigV4Auth.self_t) (r : Request) :
  SigV4Auth.canonical_request_parts self r
  = match SigV4Auth.body_checksum r with
    | (inl e, r') => (inl e, r')
    | (inr checksum, r') =>
        (inr [ Py.upper (method r);
               SigV4Auth._normalize_url_path self (Urllib.path (url r));
               SigV4Auth.canonical_query_string r;
               SigV4Auth.canonical_headers (SigV4Auth.headers_to_sign r) +:+ Py.LF;
               SigV4Auth.signed_headers (SigV4Auth.headers_to_sign r);
               checksum ], r')
    end.
Proof.
  unfold SigV4Auth.canonical_request_parts, bind, get_request, ret.
  by destruct (SigV4Auth.body_checksum r) as [[e|v] r'].
Qed.

(** The part of [add_auth] that follows [_add_headers_before_signing],
    when the checksum step succeeds without changing the request. *)
Lemma sign_tail_pure (self : SigV4Auth.self_t) (c : Credentials)
    (r : Request) (v : string) :
  SigV4Auth.body_checksum r = (inr v, r) →
  ∃ auth,
    SigV4Auth.attach_signature self c r
    = (inr tt, with_headers (HTTPHeaders.setitem "Authorization" auth (headers r)) r).
Proof.
  intros Hc. unfold SigV4Auth.attach_signature, SigV4Auth.canonical_request, bind.
  rewrite canonical_request_parts_run, Hc.
  unfold ret, get_request, modify_headers. by eexists.
Qed.

Lemma sign_tail_fails (self : SigV4Auth.self_t) (c : Credentials)
    (r : Request) (e : exn) :
  SigV4Auth.body_checksum r = (inl e, r) →
    SigV4Auth.attach_signature self c r
    = (inl e, r).
Proof.
  intros Hc. unfold SigV4Auth.attach_signature, SigV4Auth.canonical_request, bind.
  by rewrite canonical_request_parts_run, Hc.
Qed.

(** A request on which [payload] is the identity is signed successfully,
    and only its headers change. *)
Lemma sign_request_pure_payload (self : SigV4Auth.self_t) (c : Credentials)
    (r : Request) (d : string) :
  (∀ h, SigV4Auth.payload (with_headers h r) = (inr d, with_headers h r)) →
  ∃ h', SigV4Auth.sign_request self c r = (inr tt, with_headers h' r).
Proof.
  intros Hp. unfold SigV4Auth.sign_request, SigV4Auth._add_headers_before_signing.
  destruct (SigV4Auth.klass self).
  - unfold bind at 1. rewrite base_add_headers_run.
    destruct (body_checksum_pure _ _ (Hp (SigV4Auth.prepared_headers self c (headers r))))
      as [v Hv].
    destruct (sign_tail_pure self c _ v Hv) as [auth ->]. by eexists.
  - rewrite bind_assoc. unfold bind at 1. rewrite base_add_headers_run.
    rewrite bind_assoc. unfold bind at 1. rewrite Hp.
    unfold bind at 1. unfold modify_headers at 1. simpl.
    match goal with |- context [with_headers ?h (with_headers _ r)] =>
      change (with_headers h (with_headers _ r)) with (with_headers h r);
      destruct (body_checksum_pure _ _ (Hp h)) as [v Hv] end.
    destruct (sign_tail_pure self c _ v Hv) as [auth ->]. by eexists.
Qed.

End SigV4Runs.

Section SigV4Claims.
Context `{Hashlib} `{BotocoreUtils}.

Lemma sign_request_payload_fails (self : SigV4Auth.self_t) (c : Credentials)
    (r : Request) (e : exn) :
  (∀ h, SigV4Auth.payload (with_headers h r) = (inl e, with_headers h r)) →
  SigV4Auth.klass self = SigV4Auth.S3
  ∨ HTTPHeaders.contains "X-Amz-Content-SHA256" (headers r) = false →
  ∃ h', SigV4Auth.sign_request self c r = (inl e, with_headers h' r).
Proof.
  intros Hp Hneed.
  unfold SigV4Auth.sign_request, SigV4Auth._add_headers_before_signing.
  destruct (SigV4Auth.klass self) eqn:Ek.
  - destruct Hneed as [?|Hno]; [done|].
    unfold bind at 1. rewrite base_add_headers_run.
    eexists. apply sign_tail_fails. rewrite body_checksum_run. simpl.
    by rewrite prepared_headers_contains_sha, Hno, Hp.
  - rewrite bind_assoc. unfold bind at 1. rewrite base_add_headers_run.
    rewrite bind_assoc. unfold bind at 1. rewrite Hp. by eexists.
Qed.

(** C4.  When the body is a stream with a working [seek], a v4 signing
    call (either class) succeeds and hands the body back exactly as it
    found it, read position included, whatever the length of the data
    relative to PAYLOAD_BUFFER; the digest that [payload] computes covers
    every byte from that position to the end. *)
Theorem sigv4_add_auth_restores_stream_position (now : Clock)
    (self : SigV4Auth.self_t) (c : Credentials) (r : Request)
    (data : string) (p : nat) :
  SigV4Auth.credentials self = Some c →
  body r = BodyStream (mkStream data p true true) →
  SigV4Auth.payload r = (inr (SigV4Auth.sha256_hexdigest (Py.drop p data)), r)
  ∧ ∃ self' r',
      SigV4Auth.add_auth now self r = (inr tt, self', r')
      ∧ body r' = BodyStream (mkStream data p true true).
Proof.
  intros Hc Hb. split; [by apply payload_seekable|].
  unfold SigV4Auth.add_auth. rewrite Hc.
  destruct (sign_request_pure_payload
              (SigV4Auth.set_timestamp (strftime_amz now) self) c r
              (SigV4Auth.sha256_hexdigest (Py.drop p data))) as [h' ->].
  { intros h. by apply payload_seekable. }
  eexists _, _. split; [done|]. done.
Qed.

(** C3 (as the code has it).  When the body is a stream that cannot be
    rewound, [payload] fails with AttributeError if the object has no
    [seek] attribute (it is then handled as a string and has no [encode])
    and with the stream's own IOError if [tell()] fails; [add_auth] fails
    with that same error whenever it needs the payload hash.  The error is
    never UnseekableStreamError. *)
Theorem sigv4_unseekable_body_error (now : Clock) (self : SigV4Auth.self_t)
    (c : Credentials) (r : Request) (f : Stream) :
  SigV4Auth.credentials self = Some c →
  body r = BodyStream f →
  has_seek f && seekable f = false →
  SigV4Auth.klass self = SigV4Auth.S3
  ∨ HTTPHeaders.contains "X-Amz-Content-SHA256" (headers r) = false →
  let e := if has_seek f then IOError else AttributeError in
  SigV4Auth.payload r = (inl e, r)
  ∧ (∃ self' r', SigV4Auth.add_auth now self r = (inl e, self', r'))
  ∧ e ≠ UnseekableStreamError.
Proof.
  intros Hc Hb Hs Hneed e.
  assert (∀ r0, body r0 = BodyStream f → SigV4Auth.payload r0 = (inl e, r0)) as Hp.
  { intros r0 Hb0. subst e. destruct (has_seek f) eqn:E.
    - by apply (payload_tell_fails r0 f).
    - by apply (payload_no_seek_attr r0 f). }
  split; [by apply Hp|]. split; [|subst e; by destruct (has_seek f)].
  unfold SigV4Auth.add_auth. rewrite Hc.
  destruct (sign_request_payload_fails
              (SigV4Auth.set_timestamp (strftime_amz now) self) c r e)
    as [h' ->]; [intros h; by apply Hp|done|].
  by eexists _, _.
Qed.

(** C8.  For a request whose body is None or the empty string and that
    carries no X-Amz-Content-SHA256 header, the payload hash of the
    canonical request is the constant
    e3b0c44298fc1c149afbf4c8996fb92427ae41e4649b934ca495991b7852b855 (the
    SHA-256 of no bytes, in hex): both when [canonical_request] is applied
    to the request directly and when it runs inside [add_auth], after
    [_add_headers_before_signing], for either class. *)
Theorem sigv4_empty_body_payload_hash (self : SigV4Auth.self_t)
    (c : Credentials) (r : Request) :
  body_truthy (body r) = false →
  HTTPHeaders.contains "X-Amz-Content-SHA256" (headers r) = false →
  SigV4Auth.body_checksum r
  = (inr "e3b0c44298fc1c149afbf4c8996fb92427ae41e4649b934ca495991b7852b855", r)
  ∧ ∃ r1 cr,
      SigV4Auth._add_headers_before_signing self c r = (inr tt, r1)
      ∧ SigV4Auth.canonical_request_parts self r1 = (inr cr, r1)
      ∧ length cr = 6
      ∧ last cr
        = Some "e3b0c44298fc1c149afbf4c8996fb92427ae41e4649b934ca495991b7852b855".
Proof.
  intros Hb Hno.
  change "e3b0c44298fc1c149afbf4c8996fb92427ae41e4649b934ca495991b7852b855"
    with EMPTY_SHA256_HASH.
  split.
  { rewrite body_checksum_run, Hno. by apply payload_no_body. }
  unfold SigV4Auth._add_headers_before_signing.
  destruct (SigV4Auth.klass self).
  - rewrite base_add_headers_run. eexists _, _. split; [done|].
    rewrite canonical_request_parts_run, body_checksum_run. simpl.
    rewrite prepared_headers_contains_sha, Hno.
    rewrite payload_no_body by done. done.
  - unfold bind at 1. rewrite base_add_headers_run.
    unfold bind at 1. rewrite payload_no_body by done.
    unfold modify_headers. simpl.
    eexists _, _. split; [done|].
    rewrite canonical_request_parts_run, body_checksum_run. simpl.
    rewrite contains_setitem. replace (_ || _) with true
      by (by rewrite orb_true_r).
    rewrite get_setitem_fresh
      by (by rewrite prepared_headers_contains_sha).
    done.
Qed.

End SigV4Claims.

Lemma sigv4_add_auth_restores_stream_position_witness :
  let r := Sample.request [("Content-Type", "text/plain")]
             (BodyStream (mkStream "hello world" 3 true true)) in
  let self := SigV4Auth.mkSelf SigV4Auth.S3 (Some Sample.creds) ""
                "us-east-1" "s3" in
  SigV4Auth.payload (H := Sample.hashes) r
  = (inr (SigV4Auth.sha256_hexdigest (H := Sample.hashes) "lo world"), r)
  ∧ ∃ self' r',
      SigV4Auth.add_auth (H := Sample.hashes) (H0 := Sample.utils)
        Sample.now self r = (inr tt, self', r')
      ∧ body r' = BodyStream (mkStream "hello world" 3 true true).
Proof.
  intros r self.
  apply (sigv4_add_auth_restores_stream_position
           (H := Sample.hashes) (H0 := Sample.utils)
           Sample.now self Sample.creds r "hello world" 3);
    reflexivity.
Defined.

Lemma sigv4_unseekable_body_error_witness :
  let r := Sample.request [] (BodyStream (mkStream "hello" 0 true false)) in
  let self := SigV4Auth.mkSelf SigV4Auth.Plain (Some Sample.creds) ""
                "us-east-1" "ec2" in
  SigV4Auth.payload (H := Sample.hashes) r = (inl IOError, r)
  ∧ (∃ self' r',
       SigV4Auth.add_auth (H := Sample.hashes) (H0 := Sample.utils)
         Sample.now self r = (inl IOError, self', r'))
  ∧ IOError ≠ UnseekableStreamError.
Proof.
  intros r self.
  apply (sigv4_unseekable_body_error
           (H := Sample.hashes) (H0 := Sample.utils)
           Sample.now self Sample.creds r (mkStream "hello" 0 true false));
    [reflexivity|reflexivity|reflexivity|right; reflexivity].
Defined.

(** C3, as stated, fails: a stream body without a [seek] attribute makes
    signing fail with AttributeError, not with UnseekableStreamError. *)
Lemma sigv4_unseekable_body_not_UnseekableStreamError :
  let r := Sample.request [] (BodyStream (mkStream "hello" 0 false false)) in
  let signer := SigV4 (SigV4Auth.mkSelf SigV4Auth.Plain (Some Sample.creds) ""
                         "us-east-1" "ec2") in
  (add_auth (H := Sample.hashes) (H0 := Sample.utils) Sample.now signer r).1.1
  = inl AttributeError
  ∧ (add_auth (H := Sample.hashes) (H0 := Sample.utils) Sample.now signer r).1.1
    ≠ inl UnseekableStreamError.
Proof. split; [vm_compute; reflexivity|vm_compute; discriminate]. Qed.

Lemma sigv4_empty_body_payload_hash_witness :
  let r := Sample.request [("Content-Type", "text/plain")] (BodyStr "") in
  let self := SigV4Auth.mkSelf SigV4Auth.S3 (Some Sample.creds)
                "20110909T233600Z" "us-east-1" "s3" in
  SigV4Auth.body_checksum (H := Sample.hashes) r
  = (inr "e3b0c44298fc1c149afbf4c8996fb92427ae41e4649b934ca495991b7852b855", r)
  ∧ ∃ r1 cr,
      SigV4Auth._add_headers_before_signing (H := Sample.hashes)
        self Sample.creds r = (inr tt, r1)
      ∧ SigV4Auth.canonical_request_parts (H := Sample.hashes)
          (H0 := Sample.utils) self r1 = (inr cr, r1)
      ∧ length cr = 6
      ∧ last cr
        = Some "e3b0c44298fc1c149afbf4c8996fb92427ae41e4649b934ca495991b7852b855".
Proof.
  intros r self.
  apply (sigv4_empty_body_payload_hash (H := Sample.hashes)
           (H0 := Sample.utils) self Sample.creds r); reflexivity.
Defined.

(** ** SigV4Auth replaces a stale Authorization header *)

Section SigV4Authorization.
Context `{Hashlib} `{BotocoreUtils}.

(** [payload] leaves the request as it found it, whether it returns or
    raises. *)
Lemma payload_state (r : Request) : ∃ res, SigV4Auth.payload r = (res, r).
Proof.
  unfold SigV4Auth.payload.
  destruct (body_truthy (body r) && hasattr_seek (body r)).
  - destruct (body r) as [|s|u|f] eqn:Eb; try by eexists.
    unfold File.tell, File.seek.
    destruct (read_loop_at_pos PAYLOAD_BUFFER f "") as [q Hq].
    destruct (SigV4Auth.read_loop _ _ _) as [fed f1]. simpl in Hq. subst f1.
    simpl. destruct (seekable f); [|by eexists].
    rewrite at_pos_at_pos, at_pos_same, <- Eb, with_body_same. by eexists.
  - destruct (body_truthy (body r)); [|by eexists].
    destruct (body_encode (body r)); by eexists.
Qed.

Lemma attach_signature_count (self : SigV4Auth.self_t) (c : Credentials)
    (r : Request) :
  HTTPHeaders.count "Authorization" (headers r) = 0 →
  ∃ res h',
    SigV4Auth.attach_signature self c r = (res, with_headers h' r)
    ∧ HTTPHeaders.count "Authorization" h'
      = match res with inr _ => 1 | inl _ => 0 end.
Proof.
  intros H0'.
  destruct (SigV4Auth.body_checksum r) as [[e|v] r'] eqn:E.
  - assert (r' = r) as ->.
    { rewrite body_checksum_run in E.
      destruct (HTTPHeaders.contains _ _).
      - destruct (HTTPHeaders.get _ _); congruence.
      - destruct (payload_state r) as [res Hres]. congruence. }
    rewrite (sign_tail_fails self c r e E).
    exists (inl e), (headers r). split; [by destruct r|done].
  - assert (r' = r) as ->.
    { rewrite body_checksum_run in E.
      destruct (HTTPHeaders.contains _ _).
      - destruct (HTTPHeaders.get _ _); congruence.
      - destruct (payload_state r) as [res Hres]. congruence. }
    destruct (sign_tail_pure self c r v E) as [auth ->].
    eexists (inr tt), _. split; [done|].
    by rewrite count_setitem, H0'.
Qed.

Lemma sign_request_count (self : SigV4Auth.self_t) (c : Credentials)
    (r : Request) :
  ∃ res h',
    SigV4Auth.sign_request self c r = (res, with_headers h' r)
    ∧ HTTPHeaders.count "Authorization" h'
      = match res with inr _ => 1 | inl _ => 0 end.
Proof.
  unfold SigV4Auth.sign_request, SigV4Auth._add_headers_before_signing.
  pose proof (prepared_headers_no_authorization self c (headers r)) as Hprep.
  destruct (SigV4Auth.klass self).
  - unfold bind at 1. rewrite base_add_headers_run.
    destruct (attach_signature_count self c
                (with_headers (SigV4Auth.prepared_headers self c (headers r)) r))
      as (res & h' & -> & Hc); [done|].
    by exists res, h'.
  - rewrite bind_assoc. unfold bind at 1. rewrite base_add_headers_run.
    rewrite bind_assoc. unfold bind at 1.
    destruct (payload_state
                (with_headers (SigV4Auth.prepared_headers self c (headers r)) r))
      as [[e|d] ->].
    + by exists (inl e), (SigV4Auth.prepared_headers self c (headers r)).
    + unfold bind at 1. unfold modify_headers at 1. simpl.
      match goal with |- context [with_headers ?h (with_headers _ r)] =>
        change (with_headers h (with_headers _ r)) with (with_headers h r);
        destruct (attach_signature_count self c (with_headers h r))
          as (res & h' & -> & Hc) end.
      { simpl. by rewrite count_setitem, Hprep. }
      by exists res, h'.
Qed.

(** X1.  Both v4 classes end a successful [add_auth] with exactly one
    Authorization header, however many the request carried before (and
    with none when signing raises). *)
Lemma sigv4_add_auth_single_authorization (now : Clock)
    (self : SigV4Auth.self_t) (c : Credentials) (r : Request) :
  SigV4Auth.credentials self = Some c →
  ∃ res self' r',
    SigV4Auth.add_auth now self r = (res, self', r')
    ∧ HTTPHeaders.count "Authorization" (headers r')
      = match res with inr _ => 1 | inl _ => 0 end.
Proof.
  intros Hc. unfold SigV4Auth.add_auth. rewrite Hc.
  destruct (sign_request_count
              (SigV4Auth.set_timestamp (strftime_amz now) self) c r)
    as (res & h' & -> & Hn).
  by eexists _, _, _.
Qed.

End SigV4Authorization.

(** ** base64 output and [strip] *)

Lemma lstrip_no_space (s : string) : Py.no_space s → Py.lstrip s = s.
Proof. destruct s as [|c s]; simpl; [done|]. by intros [-> _]. Qed.

Lemma rstrip_no_space (s : string) : Py.no_space s → Py.rstrip s = s.
Proof.
  induction s as [|c s IH]; simpl; [done|]. intros [Hc Hs].
  rewrite IH by done. rewrite Hc. by destruct s.
Qed.

Lemma strip_no_space (s : string) : Py.no_space s → Py.strip s = s.
Proof.
  intros Hs. unfold Py.strip. rewrite lstrip_no_space by done.
  by apply rstrip_no_space.
Qed.

Lemma sextet_not_space (n : N) : Py.isspace (Base64.sextet n) = false.
Proof.
  unfold Base64.sextet.
  assert (N.to_nat (n mod 64) < 64) as Hlt.
  { pose proof (N.mod_upper_bound n 64). lia. }
  generalize dependent (N.to_nat (n mod 64)). intros k Hk.
  do 64 (destruct k as [|k]; [reflexivity|]). lia.
Qed.

Lemma b64encode_no_space_aux (s : string) :
  Py.no_space (Base64.b64encode s)
  ∧ (∀ a, Py.no_space (Base64.b64encode (String a s)))
  ∧ (∀ a b, Py.no_space (Base64.b64encode (String a (String b s)))).
Proof.
  induction s as [|c s (IH0 & IH1 & IH2)].
  - repeat split; simpl; auto using sextet_not_space.
  - split; [apply IH1|]. split; [intros a; apply IH2|]. intros a b.
    cbn [Base64.b64encode Py.no_space].
    repeat split; auto using sextet_not_space.
Qed.

Lemma strip_b64encode (s : string) :
  Py.strip (Base64.b64encode s) = Base64.b64encode s.
Proof. apply strip_no_space, b64encode_no_space_aux. Qed.

(** ** SigV2Auth.calc_signature *)

Lemma keys_NoDup (d : gmap string string) : NoDup (keys d).
Proof. apply NoDup_fst_map_to_list. Qed.

Lemma elem_of_keys (d : gmap string string) (k : string) :
  k ∈ keys d ↔ is_Some (d !! k).
Proof.
  unfold keys. rewrite list_elem_of_fmap. split.
  - intros ([k' v] & -> & Hin). apply elem_of_map_to_list in Hin. by eexists.
  - intros [v Hv]. exists (k, v). split; [done|]. by apply elem_of_map_to_list.
Qed.

(** C5.  SigV2Auth.calc_signature: the string to sign is the method, the
    host (netloc) and the path, each followed by a newline, the path being
    ['/'] when the URL has none, followed by the query string; the query
    string joins with ['&'] one [key=value] entry per parameter, keys in
    ascending order, each key quoted with the empty safe set and each value
    with safe set ['-_~']; the signature is the base64 encoding of the
    HMAC-SHA256 of that string under the secret key. *)
Theorem sigv2_calc_signature_spec `{Hashlib} (c : Credentials)
    (request : Request) (params : gmap string string) :
  ∃ ks : list string,
    StronglySorted String.le ks
    ∧ NoDup ks
    ∧ (∀ k, k ∈ ks ↔ is_Some (params !! k))
    ∧ let qs :=
        Py.join "&"
          (map (λ k, Urllib.quote k "" +:+ "=" +:+
                     Urllib.quote (params !!! k) "-_~") ks) in
      let path :=
        if decide (Urllib.path (url request) = "") then "/"
        else Urllib.path (url request) in
      let sts :=
        method request +:+ Py.LF +:+ Urllib.netloc (url request) +:+ Py.LF
        +:+ path +:+ Py.LF +:+ qs in
      SigV2Auth.string_to_sign request params = sts
      ∧ SigV2Auth.calc_signature c request params
        = (qs, Base64.b64encode (hmac_sha256 (secret_key c) sts)).
Proof.
  exists (Py.sorted (keys params)). split; [apply sorted_StronglySorted|].
  split.
  { rewrite sorted_Permutation. apply keys_NoDup. }
  split.
  { intros k. by rewrite sorted_elem_of, elem_of_keys. }
  assert (SigV2Auth.string_to_sign_head request
          = method request +:+ Py.LF +:+ Urllib.netloc (url request) +:+ Py.LF
            +:+ (if decide (Urllib.path (url request) = "") then "/"
                 else Urllib.path (url request)) +:+ Py.LF) as Hhead.
  { unfold SigV2Auth.string_to_sign_head.
    destruct (Urllib.path (url request)) as [|a p]; simpl; done. }
  simpl. unfold SigV2Auth.string_to_sign, SigV2Auth.calc_signature.
  rewrite Hhead, strip_b64encode. unfold SigV2Auth.pairs.
  rewrite !app_assoc_str. done.
Qed.

Example sigv2_calc_signature_example :
  SigV2Auth.string_to_sign
    (mkRequest "POST" (Sample.split "" "") [] ∅ ∅ ∅ BodyNone)
    {[ "b key" := "v/1~"; "Action" := "List Things"; "a" := "x_y-z" ]}
  = "POST" +:+ Py.LF +:+ "host.foo.com" +:+ Py.LF +:+ "/" +:+ Py.LF +:+
    "Action=List%20Things&a=x_y-z&b%20key=v%2F1~".
Proof. vm_compute. reflexivity. Qed.

(** ** HmacV1Auth.canonical_resource *)

Lemma unquote_v_key (a : list string) :
  Py.itemgetter0 (HmacV1Auth.unquote_v a) = Py.itemgetter0 a.
Proof. by destruct a as [|k [|v a]]. Qed.

Lemma qsa_of_interest_keys (query : string) :
  Forall (λ a, Py.itemgetter0 a ∈ HmacV1Auth.QSAOfInterest)
         (HmacV1Auth.qsa_of_interest query).
Proof.
  unfold HmacV1Auth.qsa_of_interest. apply Forall_forall. intros a Ha.
  apply list_elem_of_fmap in Ha as (b & -> & Hb).
  apply list_elem_of_In, List.filter_In in Hb as [_ Hb].
  rewrite unquote_v_key. unfold HmacV1Auth.of_interest in Hb.
  by apply bool_decide_eq_true in Hb.
Qed.

(** C7.  HmacV1Auth.canonical_resource, for a query in which at least one
    key is on the QSAOfInterest list: the result is the resource path,
    ['?'], and the ['&']-joined fields of the query whose key is on the
    list (values unquoted), in ascending order of key; fields with any
    other key are left out. *)
Theorem hmacv1_canonical_resource_allow_list (self : HmacV1Auth.self_t)
    (split : Urllib.SplitResult) :
  (∃ a, a ∈ HmacV1Auth.query_fields (Urllib.query split)
        ∧ Py.itemgetter0 a ∈ HmacV1Auth.QSAOfInterest) →
  let kept :=
    Py.sort_on Py.itemgetter0 (HmacV1Auth.qsa_of_interest (Urllib.query split)) in
  HmacV1Auth.canonical_resource self split
  = HmacV1Auth.resource_path self split +:+ "?" +:+
    Py.join "&" (map (Py.join "=") kept)
  ∧ Forall (λ a, Py.itemgetter0 a ∈ HmacV1Auth.QSAOfInterest) kept
  ∧ StronglySorted (Py.key_le Py.itemgetter0) kept
  ∧ kept ≡ₚ map HmacV1Auth.unquote_v
              (List.filter HmacV1Auth.of_interest
                 (HmacV1Auth.query_fields (Urllib.query split))).
Proof.
  intros (a & Hin & Hkey) kept. split; [|split; [|split]].
  - unfold HmacV1Auth.canonical_resource.
    assert (HmacV1Auth.unquote_v a
            ∈ HmacV1Auth.qsa_of_interest (Urllib.query split)) as Hq.
    { unfold HmacV1Auth.qsa_of_interest. apply list_elem_of_fmap.
      exists a. split; [done|]. apply list_elem_of_In, List.filter_In.
      split; [by apply list_elem_of_In|].
      unfold HmacV1Auth.of_interest. by apply bool_decide_eq_true. }
    destruct (Urllib.query split) as [|ch q] eqn:Eq.
    { exfalso. vm_compute in Hin. apply list_elem_of_In in Hin.
      destruct Hin as [<-|[]]. vm_compute in Hkey.
      clear -Hkey. apply list_elem_of_In in Hkey. simpl in Hkey.
      repeat (destruct Hkey as [Hkey|Hkey]; [discriminate|]). done. }
    cbn [Py.truthy].
    destruct (HmacV1Auth.qsa_of_interest (String ch q)) as [|x l] eqn:El.
    { by apply elem_of_nil in Hq. }
    done.
  - subst kept. rewrite sort_on_Permutation. apply qsa_of_interest_keys.
  - apply sort_on_StronglySorted.
  - apply sort_on_Permutation.
Qed.

Lemma hmacv1_canonical_resource_allow_list_witness :
  HmacV1Auth.canonical_resource (HmacV1Auth.mkSelf None None)
    (Sample.split "/bucket/key" "partNumber=1&foo=bar")
  = "/bucket/key?partNumber=1".
Proof.
  destruct (hmacv1_canonical_resource_allow_list
              (HmacV1Auth.mkSelf None None)
              (Sample.split "/bucket/key" "partNumber=1&foo=bar"))
    as [Heq _].
  { exists ["partNumber"; "1"]. split.
    - vm_compute. apply list_elem_of_In. simpl. by left.
    - apply list_elem_of_In. simpl. tauto. }
  rewrite Heq. reflexivity.
Defined.

Example hmacv1_canonical_resource_examples :
  HmacV1Auth.canonical_resource (HmacV1Auth.mkSelf None (Some "/bucket/key"))
    (Sample.split "/key" "versionId=3&x=1&acl&uploadId=a%2Fb&y")
  = "/bucket/key?acl&uploadId=a/b&versionId=3"
  ∧ HmacV1Auth.canonical_resource (HmacV1Auth.mkSelf None None)
      (Sample.split "/bucket/key" "foo=bar")
    = "/bucket/key".
Proof. split; vm_compute; reflexivity. Qed.

(** ** SigV4Auth: the canonical query string *)

Lemma sort_on_map {A : Type} (f : A → string) (l : list A) :
  Py.sorted (map f l) = map f (Py.sort_on f l).
Proof.
  unfold Py.sorted. induction l as [|x l IH]; [done|].
  cbn [map Py.sort_on foldr]. fold (Py.sort_on id (map f l)).
  fold (Py.sort_on f l). rewrite IH. clear IH.
  induction (Py.sort_on f l) as [|y l' IH]; [done|].
  cbn [map Py.insert_on]. unfold id at 1 2.
  destruct (String.leb (f x) (f y)); [done|]. cbn [map]. by rewrite IH.
Qed.

(** Comparing two strings whose heads [k1], [k2] are not prefixes of one
    another compares the heads. *)
Lemma le_app_prefix_free (k1 k2 r1 r2 : string) :
  String.prefix k1 k2 = false → String.prefix k2 k1 = false →
  String.le (k1 +:+ r1) (k2 +:+ r2) → String.le k1 k2.
Proof.
  unfold String.le, String.leb. revert k2.
  induction k1 as [|a1 k1 IH]; intros [|a2 k2]; try done.
  cbn [String.prefix String.append String.compare].
  destruct (Ascii.compare a1 a2) eqn:Ec; [|done..].
  apply Ascii.compare_eq_iff in Ec. subst a2.
  destruct (ascii_dec a1 a1); [|done]. apply IH.
Qed.

Lemma char_in_app (c : ascii) (a b : string) :
  Py.char_in c (a +:+ b) = Py.char_in c a || Py.char_in c b.
Proof.
  induction a as [|x a IH]; simpl; [done|]. by rewrite IH, orb_assoc.
Qed.

Lemma quoter_no_eq (c : ascii) :
  Py.char_in "=" (Urllib.quoter "-_.~" c) = false.
Proof. by destruct c as [[] [] [] [] [] [] [] []]. Qed.

Lemma quote_no_eq (s : string) :
  Py.char_in "=" (Urllib.quote s "-_.~") = false.
Proof.
  induction s as [|c s IH]; simpl; [done|].
  by rewrite char_in_app, quoter_no_eq, IH.
Qed.

Lemma split1_app (k v : string) :
  Py.char_in "=" k = false →
  Py.split1 "=" (k +:+ String "="%char v) = [k; v].
Proof.
  induction k as [|c k IH]; [done|].
  cbn [Py.char_in String.append Py.split1].
  intros [Hc Hk]%orb_false_elim. rewrite Ascii.eqb_sym in Hc.
  by rewrite Hc, (IH Hk).
Qed.

Lemma entry_key_app (k v : string) :
  Py.char_in "=" k = false → entry_key (k +:+ "=" +:+ v) = k.
Proof.
  intros Hk. unfold entry_key.
  change (k +:+ "=" +:+ v) with (k +:+ String "="%char v).
  by rewrite split1_app.
Qed.

Lemma StronglySorted_map_distinct {A B : Type} (R : relation A)
    (R' : relation string) (g : A → B) (f : A → string) (l : list A) :
  StronglySorted R l → NoDup (map g l) →
  (∀ x y, x ∈ l → y ∈ l → g x ≠ g y → R x y → R' (f x) (f y)) →
  StronglySorted R' (map f l).
Proof.
  induction 1 as [|x l Hl IH Hx]; intros Hd Himp; cbn [map]; [constructor|].
  cbn [map] in Hd. apply NoDup_cons in Hd as [Hnx Hd].
  constructor.
  - apply IH; [done|]. intros a b Ha Hb. apply Himp; by right.
  - apply Forall_forall. intros fy Hfy.
    apply list_elem_of_fmap in Hfy as (y & -> & Hy).
    apply Himp; [by left|by right| |].
    + intros Heq. apply Hnx. rewrite Heq. apply list_elem_of_fmap. by exists y.
    + rewrite Forall_forall in Hx. by apply Hx.
Qed.

(** When no encoded key is a prefix of another, sorting the encoded
    ["key=value"] strings lists the entries in ascending order of key. *)
Lemma encoded_params_sorted_by_key (params : gmap string string) :
  prefix_free_keys params →
  StronglySorted String.le
    (map entry_key (Py.sorted (SigV4Auth.encoded_params params))).
Proof.
  intros Hpf. unfold SigV4Auth.encoded_params.
  rewrite sort_on_map, map_map.
  set (enc := λ kv : string * string,
         Urllib.quote kv.1 "-_.~" +:+ "=" +:+ Urllib.quote kv.2 "-_.~").
  erewrite (map_ext (λ x, entry_key (enc x)) (λ kv, Urllib.quote kv.1 "-_.~"));
    [|intros [k v]; apply entry_key_app, quote_no_eq].
  pose proof (sort_on_Permutation enc (map_to_list params)) as Hperm.
  apply (StronglySorted_map_distinct (Py.key_le enc) String.le fst).
  - apply sort_on_StronglySorted.
  - rewrite Hperm. apply NoDup_fst_map_to_list.
  - intros [k1 v1] [k2 v2] H1 H2 Hne Hle. simpl in *.
    rewrite Hperm in H1, H2. apply elem_of_map_to_list in H1, H2.
    unfold Py.key_le, enc in Hle. simpl in Hle.
    eapply le_app_prefix_free; [| |exact Hle].
    + apply Hpf; by eauto.
    + apply Hpf; by eauto.
Qed.

(** C2.  The canonical query string is not in ascending order of encoded
    key, in either branch.  With the structured params [InstanceId.1] and
    [InstanceId.10], [_canonical_query_string_params] lists [InstanceId.10]
    first: it sorts the joined ["key=value"] strings, and ['0'] sorts
    before ['='].  [SigV2Auth.calc_signature], given the same params, sorts
    the keys and lists [InstanceId.1] first.  With the URL query
    ["Action=ListUsers&AWSAccessKeyId=AKID"], [_canonical_query_string_url]
    leaves [Action] before [AWSAccessKeyId]: its sort key, [itemgetter(0)]
    of an entry that is a string, is the entry's first character. *)
Theorem sigv4_query_string_keys_misordered :
  let by_params :=
    mkRequest "GET" (Sample.split "/" "") []
              {[ "InstanceId.1" := "i-1"; "InstanceId.10" := "i-10" ]}
              ∅ ∅ BodyNone in
  let by_url :=
    mkRequest "GET"
              (Sample.split "/" "Action=ListUsers&AWSAccessKeyId=AKID")
              [] ∅ ∅ ∅ BodyNone in
  (SigV4Auth.canonical_query_string by_params
   = "InstanceId.10=i-10&InstanceId.1=i-1"
   ∧ ¬ StronglySorted String.le
         (listed_keys (SigV4Auth.canonical_query_string by_params))
   ∧ SigV2Auth.pairs (params by_params)
     = ["InstanceId.1=i-1"; "InstanceId.10=i-10"])
  ∧ (SigV4Auth.canonical_query_string by_url
     = "Action=ListUsers&AWSAccessKeyId=AKID"
     ∧ ¬ StronglySorted String.le
           (listed_keys (SigV4Auth.canonical_query_string by_url))).
Proof.
  split; (split; [vm_compute; reflexivity|]).
  - split; [|vm_compute; reflexivity].
    replace (listed_keys _) with ["InstanceId.10"; "InstanceId.1"]
      by (vm_compute; reflexivity).
    intros Hs. apply StronglySorted_inv in Hs as [_ Hf].
    apply Forall_cons in Hf as [Hle _]. vm_compute in Hle. done.
  - replace (listed_keys _) with ["Action"; "AWSAccessKeyId"]
      by (vm_compute; reflexivity).
    intros Hs. apply StronglySorted_inv in Hs as [_ Hf].
    apply Forall_cons in Hf as [Hle _]. vm_compute in Hle. done.
Qed.

(** A stable sort on a key that is the same for every element changes
    nothing. *)
Lemma sort_on_constant_key {A : Type} (key : A → string) (c : string)
    (l : list A) :
  Forall (λ x, key x = c) l → Py.sort_on key l = l.
Proof.
  induction 1 as [|x l Hx Hl IH]; [done|].
  change (Py.sort_on key (x :: l)) with (Py.insert_on key x (Py.sort_on key l)).
  rewrite IH. clear IH.
  destruct Hl as [|y l Hy Hl]; [done|].
  cbn [Py.insert_on]. rewrite Hx, Hy.
  assert (String.le c c) as Hr by reflexivity.
  unfold String.le in Hr. by destruct (String.leb c c).
Qed.

(** Entries of the URL's query that start with the same character are
    not sorted at all: they come out in the order of the URL. *)
Lemma canonical_query_string_url_same_initial (parts : Urllib.SplitResult)
    (c : string) :
  Py.truthy (Urllib.query parts) = true →
  Forall (λ e, Py.itemgetter0_str e = c)
         (SigV4Auth.quoted_qsa (Urllib.query parts)) →
  SigV4Auth._canonical_query_string_url parts
  = Py.join "&" (SigV4Auth.quoted_qsa (Urllib.query parts)).
Proof.
  intros Hq Hc. unfold SigV4Auth._canonical_query_string_url. rewrite Hq.
  rewrite (sort_on_constant_key _ c) by done.
  by destruct (SigV4Auth.quoted_qsa (Urllib.query parts)).
Qed.

(** The order that the code does establish.  With structured params the
    canonical query string joins with ['&'] the percent-encoded
    ["key=value"] strings of the parameters, sorted as whole strings, which
    is the order of the encoded keys when none of them is a prefix of
    another; without structured params it joins the encoded entries of the
    URL's query (all of them, each once). *)
Theorem sigv4_canonical_query_string_order (request : Request) :
  ∃ entries : list string,
    SigV4Auth.canonical_query_string request = Py.join "&" entries
    ∧ if dict_truthy (params request)
      then StronglySorted String.le entries
           ∧ entries ≡ₚ SigV4Auth.encoded_params (params request)
           ∧ (prefix_free_keys (params request) →
              StronglySorted String.le (map entry_key entries))
      else entries ≡ₚ
             (if Py.truthy (Urllib.query (url request))
              then SigV4Auth.quoted_qsa (Urllib.query (url request))
              else []).
Proof.
  unfold SigV4Auth.canonical_query_string.
  destruct (dict_truthy (params request)).
  - exists (Py.sorted (SigV4Auth.encoded_params (params request))).
    split; [done|]. split; [apply sorted_StronglySorted|].
    split; [apply sorted_Permutation|]. apply encoded_params_sorted_by_key.
  - unfold SigV4Auth._canonical_query_string_url.
    destruct (Py.truthy (Urllib.query (url request))); [|by exists []].
    destruct (SigV4Auth.quoted_qsa _) as [|q l] eqn:E; [by exists []|].
    exists (Py.sort_on Py.itemgetter0_str (q :: l)). split; [done|].
    apply sort_on_Permutation.
Qed.

Lemma sigv4_canonical_query_string_order_witness :
  let request :=
    mkRequest "GET" (Sample.split "/" "")  []
      (<["Action" := "List Users"]> (<["Version" := "2010-05-08"]> ∅))
      ∅ ∅ BodyNone in
  ∃ entries : list string,
    SigV4Auth.canonical_query_string request = Py.join "&" entries
    ∧ StronglySorted String.le entries
    ∧ StronglySorted String.le (map entry_key entries).
Proof.
  intros request.
  destruct (sigv4_canonical_query_string_order request)
    as (entries & Hcqs & Hrest).
  change (dict_truthy (params request)) with true in Hrest.
  destruct Hrest as (Hsorted & _ & Hkeys).
  exists entries. split; [done|]. split; [done|]. apply Hkeys.
  intros k1 k2 [v1 H1] [v2 H2] Hne.
  change (params request)
    with (<["Action" := "List Users"]>
            (<["Version" := "2010-05-08"]> (∅ : gmap string string))) in H1, H2.
  assert (∀ k v,
    <["Action" := "List Users"]>
      (<["Version" := "2010-05-08"]> (∅ : gmap string string)) !! k = Some v →
    k = "Action" ∨ k = "Version") as Hdom.
  { intros k v Hk.
    apply lookup_insert_Some in Hk as [[<- _]|[_ Hk]]; [by left|].
    apply lookup_insert_Some in Hk as [[<- _]|[_ Hk]]; [by right|].
    rewrite lookup_empty in Hk. discriminate. }
  destruct (Hdom _ _ H1) as [->| ->], (Hdom _ _ H2) as [->| ->].
  - exfalso. by apply Hne.
  - vm_compute. reflexivity.
  - vm_compute. reflexivity.
  - exfalso. by apply Hne.
Defined.

Example sigv4_canonical_query_string_examples :
  SigV4Auth._canonical_query_string_params
    {[ "Version" := "2010-05-08"; "Action" := "List Users"; "a.b" := "~/" ]}
  = "Action=List%20Users&Version=2010-05-08&a.b=~%2F"
  ∧ SigV4Auth._canonical_query_string_url
      (Sample.split "/" "b=%7Ex&a=1 2&c")
    = "a=1%202&b=~x&c=".
Proof. split; vm_compute; reflexivity. Qed.

(** ** SigV4Auth: canonical headers *)

Lemma matches_lower_name (k n v : string) :
  HTTPHeaders.matches k (Py.lower n, v) = HTTPHeaders.matches k (n, v).
Proof. unfold HTTPHeaders.matches. simpl. by rewrite lower_idem. Qed.

Lemma header_map_fold (h acc : HTTPHeaders.t) :
  foldl (λ hm nv, HTTPHeaders.setitem (Py.lower nv.1) nv.2 hm) acc h
  = acc ++ map (λ nv, (Py.lower nv.1, nv.2)) h.
Proof.
  revert acc. induction h as [|nv h IH]; intros acc; simpl.
  - by rewrite app_nil_r.
  - rewrite IH. unfold HTTPHeaders.setitem. by rewrite <- (assoc_L (++)).
Qed.

Lemma contains_lowered (k : string) (h : HTTPHeaders.t) :
  HTTPHeaders.contains k (map (λ nv, (Py.lower nv.1, nv.2)) h)
  = HTTPHeaders.contains k h.
Proof.
  unfold HTTPHeaders.contains. induction h as [|[n v] h IH]; simpl; [done|].
  by rewrite IH, matches_lower_name.
Qed.

Lemma get_all_lowered (k : string) (h : HTTPHeaders.t) :
  HTTPHeaders.get_all k (map (λ nv, (Py.lower nv.1, nv.2)) h)
  = HTTPHeaders.get_all k h.
Proof.
  unfold HTTPHeaders.get_all. induction h as [|[n v] h IH]; simpl; [done|].
  rewrite matches_lower_name.
  destruct (HTTPHeaders.matches k (n, v)); simpl; by rewrite IH.
Qed.

(** [headers_to_sign], in closed form. *)
Lemma headers_to_sign_run (r : Request) :
  SigV4Auth.headers_to_sign r
  = map (λ nv, (Py.lower nv.1, nv.2)) (headers r)
    ++ if host_absent r then [("host", Urllib.netloc (url r))] else [].
Proof.
  unfold SigV4Auth.headers_to_sign, HTTPHeaders.items, host_absent.
  rewrite header_map_fold. simpl. rewrite contains_lowered.
  destruct (HTTPHeaders.contains "host" (headers r)); simpl.
  - by rewrite app_nil_r.
  - done.
Qed.

Lemma headers_to_sign_names (r : Request) :
  SigV4Auth.sorted_header_names (SigV4Auth.headers_to_sign r)
  = covered_names r.
Proof.
  unfold SigV4Auth.sorted_header_names, covered_names, HTTPHeaders.iter.
  rewrite headers_to_sign_run, map_app, map_map. simpl.
  by destruct (host_absent r).
Qed.

Lemma headers_to_sign_values (r : Request) (k : string) :
  HTTPHeaders.get_all k (SigV4Auth.headers_to_sign r) = covered_values r k.
Proof.
  unfold covered_values. rewrite headers_to_sign_run.
  unfold HTTPHeaders.get_all at 1. rewrite List.filter_app, map_app.
  fold (HTTPHeaders.get_all k (map (λ nv, (Py.lower nv.1, nv.2)) (headers r))).
  rewrite get_all_lowered. f_equal.
  destruct (host_absent r); [|done].
  cbn [andb List.filter map]. unfold HTTPHeaders.matches.
  change (Py.lower ("host", Urllib.netloc (url r)).1) with "host".
  rewrite String.eqb_sym.
  by destruct (String.eqb (Py.lower k) "host").
Qed.

(** C6, as stated, fails when values carry surrounding whitespace: the
    values [" b"] and ["a"] of one name give the line ["x-amz-meta:b,a"],
    which is neither the raw values sorted and joined ([" b,a"]) nor the
    stripped values sorted and joined (["a,b"]). *)
Lemma sigv4_canonical_headers_not_sorted_joined :
  let r := Sample.request [("X-Amz-Meta", " b"); ("x-amz-meta", "a")] BodyNone in
  SigV4Auth.canonical_headers (SigV4Auth.headers_to_sign r)
  = "host:host.foo.com" +:+ Py.LF +:+ "x-amz-meta:b,a"
  ∧ spec_canonical_headers r
    = "host:host.foo.com" +:+ Py.LF +:+ "x-amz-meta: b,a"
  ∧ SigV4Auth.canonical_headers (SigV4Auth.headers_to_sign r)
    ≠ spec_canonical_headers r.
Proof.
  split; [vm_compute; reflexivity|].
  split; [vm_compute; reflexivity|]. vm_compute. discriminate.
Qed.

(** C6 (as the code has it).  The canonical-headers block of a request has
    one line per distinct lowercased header name, the lines in ascending
    order of name; the value part of a line is the values of that name,
    sorted as they stand, then each stripped of surrounding whitespace, and
    joined with commas; a [host] line built from the authority of the URL
    is included when the request has no host header. *)
Theorem sigv4_canonical_headers_spec (r : Request) :
  SigV4Auth.canonical_headers (SigV4Auth.headers_to_sign r)
  = Py.join Py.LF
      (map (λ k, k +:+ ":" +:+
                 Py.join "," (map Py.strip (Py.sorted (covered_values r k))))
           (covered_names r))
  ∧ StronglySorted String.le (covered_names r)
  ∧ NoDup (covered_names r)
  ∧ (∀ k, k ∈ covered_names r ↔
          (∃ n v, (n, v) ∈ headers r ∧ k = Py.lower n)
          ∨ (k = "host" ∧ HTTPHeaders.contains "host" (headers r) = false))
  ∧ (if HTTPHeaders.contains "host" (headers r) then True
     else covered_values r "host" = [Urllib.netloc (url r)]).
Proof.
  split; [|split; [|split; [|split]]].
  - unfold SigV4Auth.canonical_headers, SigV4Auth.canonical_header_lines.
    rewrite headers_to_sign_names. f_equal. apply map_ext. intros k.
    by rewrite headers_to_sign_values.
  - apply sorted_StronglySorted.
  - unfold covered_names. rewrite sorted_Permutation. apply NoDup_remove_dups.
  - intros k. unfold covered_names.
    rewrite sorted_elem_of, elem_of_remove_dups, elem_of_app, list_elem_of_fmap.
    unfold host_absent. split.
    + intros [([n v] & -> & Hin)|Hh]; [left; by exists n, v|].
      destruct (HTTPHeaders.contains "host" (headers r)); simpl in Hh.
      * by apply elem_of_nil in Hh.
      * apply list_elem_of_singleton in Hh. by right.
    + intros [(n & v & Hin & ->)|[-> Hc]]; [left; by exists (n, v)|].
      right. rewrite Hc. simpl. by apply list_elem_of_singleton.
  - destruct (HTTPHeaders.contains "host" (headers r)) eqn:Hc; [done|].
    unfold covered_values, host_absent. rewrite Hc. simpl.
    by rewrite (get_all_not_contains "host" (headers r) Hc).
Qed.

Example sigv4_canonical_headers_example :
  SigV4Auth.canonical_headers
    (SigV4Auth.headers_to_sign
       (Sample.request [ ("X-Amz-Date", "20110909T233600Z");
                         ("Zoo", "zoobar"); ("zoo", "foobar");
                         ("Content-Type", " text/plain ") ] BodyNone))
  = "content-type:text/plain" +:+ Py.LF +:+
    "host:host.foo.com" +:+ Py.LF +:+
    "x-amz-date:20110909T233600Z" +:+ Py.LF +:+
    "zoo:foobar,zoobar".
Proof. vm_compute. reflexivity. Qed.

(** ** Header values that differ in surrounding whitespace *)

Lemma sw_iter (h1 h2 : HTTPHeaders.t) :
  same_up_to_whitespace h1 h2 → HTTPHeaders.iter h1 = HTTPHeaders.iter h2.
Proof.
  unfold HTTPHeaders.iter. induction 1 as [|a b l1 l2 [Hn _] _ IH]; simpl;
    [done|]. by rewrite Hn, IH.
Qed.

Lemma sw_get_all (h1 h2 : HTTPHeaders.t) (k : string) :
  same_up_to_whitespace h1 h2 →
  map Py.strip (HTTPHeaders.get_all k h1)
  = map Py.strip (HTTPHeaders.get_all k h2).
Proof.
  unfold HTTPHeaders.get_all.
  induction 1 as [|[n1 v1] [n2 v2] l1 l2 [Hn Hv] _ IH]; [done|].
  simpl in Hn, Hv. subst n2. cbn [List.filter].
  replace (HTTPHeaders.matches k (n1, v2)) with (HTTPHeaders.matches k (n1, v1))
    by done.
  destruct (HTTPHeaders.matches k (n1, v1)); [|exact IH].
  cbn [map snd]. by rewrite Hv, IH.
Qed.

Lemma sw_get (h1 h2 : HTTPHeaders.t) (k : string) :
  same_up_to_whitespace h1 h2 →
  Py.strip <$> HTTPHeaders.get k h1 = Py.strip <$> HTTPHeaders.get k h2.
Proof.
  unfold HTTPHeaders.get.
  induction 1 as [|[n1 v1] [n2 v2] l1 l2 [Hn Hv] _ IH]; [done|].
  simpl in Hn, Hv. subst n2. cbn [List.find].
  replace (HTTPHeaders.matches k (n1, v2)) with (HTTPHeaders.matches k (n1, v1))
    by done.
  destruct (HTTPHeaders.matches k (n1, v1)); [|exact IH].
  simpl. by rewrite Hv.
Qed.

Lemma sw_contains (h1 h2 : HTTPHeaders.t) (k : string) :
  same_up_to_whitespace h1 h2 →
  HTTPHeaders.contains k h1 = HTTPHeaders.contains k h2.
Proof.
  unfold HTTPHeaders.contains.
  induction 1 as [|[n1 v1] [n2 v2] l1 l2 [Hn Hv] _ IH]; [done|].
  simpl in Hn, Hv. subst n2. cbn [existsb]. by rewrite IH.
Qed.

Lemma sw_setitem (h1 h2 : HTTPHeaders.t) (n v : string) :
  same_up_to_whitespace h1 h2 →
  same_up_to_whitespace (HTTPHeaders.setitem n v h1) (HTTPHeaders.setitem n v h2).
Proof.
  unfold same_up_to_whitespace, HTTPHeaders.setitem. intros Hs.
  apply Forall2_app; [done|]. by repeat constructor.
Qed.

Lemma sw_lowered (h1 h2 : HTTPHeaders.t) :
  same_up_to_whitespace h1 h2 →
  same_up_to_whitespace (map (λ nv, (Py.lower nv.1, nv.2)) h1)
                        (map (λ nv, (Py.lower nv.1, nv.2)) h2).
Proof.
  unfold same_up_to_whitespace.
  induction 1 as [|[n1 v1] [n2 v2] l1 l2 [Hn Hv] _ IH]; simpl in *;
    constructor; [|done]. simpl in *. by subst.
Qed.

(** *** The legacy S3 signer *)

Lemma custom_headers_sw (h1 h2 : HTTPHeaders.t) :
  same_up_to_whitespace h1 h2 →
  HmacV1Auth.custom_headers h1 = HmacV1Auth.custom_headers h2.
Proof.
  intros Hs. unfold HmacV1Auth.custom_headers.
  rewrite (sw_iter h1 h2 Hs).
  generalize (∅ : gmap string string).
  induction (HTTPHeaders.iter h2) as [|key names IH]; intros m; [done|].
  cbn [foldl]. rewrite (sw_get_all h1 h2 key Hs).
  pose proof (sw_get h1 h2 key Hs) as Hg.
  destruct (HTTPHeaders.get key h1), (HTTPHeaders.get key h2);
    try discriminate; apply IH.
Qed.

Lemma canonical_custom_headers_sw (h1 h2 : HTTPHeaders.t) :
  same_up_to_whitespace h1 h2 →
  HmacV1Auth.canonical_custom_headers h1 = HmacV1Auth.canonical_custom_headers h2.
Proof.
  intros Hs. unfold HmacV1Auth.canonical_custom_headers.
  by rewrite (custom_headers_sw h1 h2 Hs).
Qed.

Lemma standard_values_sw (h1 h2 : HTTPHeaders.t) (ih : string) :
  same_up_to_whitespace h1 h2 →
  HmacV1Auth.standard_values ih h1 = HmacV1Auth.standard_values ih h2.
Proof.
  intros Hs. unfold HmacV1Auth.standard_values.
  rewrite (sw_iter h1 h2 Hs).
  assert (∀ key,
    (if String.eqb (Py.lower key) ih then
       match HTTPHeaders.get key h1 with Some v => [Py.strip v] | None => [] end
     else [])
    = (if String.eqb (Py.lower key) ih then
         match HTTPHeaders.get key h2 with Some v => [Py.strip v] | None => [] end
       else [])) as Hext.
  { intros key. destruct (String.eqb _ _); [|done].
    pose proof (sw_get h1 h2 key Hs) as Hg.
    destruct (HTTPHeaders.get key h1), (HTTPHeaders.get key h2);
      simpl in Hg; try discriminate; [|done]. by inversion Hg. }
  by rewrite (List.flat_map_ext _ _ Hext).
Qed.

Lemma canonical_standard_headers_sw (now : Clock) (h1 h2 : HTTPHeaders.t) :
  same_up_to_whitespace h1 h2 →
  (HmacV1Auth.canonical_standard_headers now h1).1
  = (HmacV1Auth.canonical_standard_headers now h2).1
  ∧ same_up_to_whitespace (HmacV1Auth.canonical_standard_headers now h1).2
                          (HmacV1Auth.canonical_standard_headers now h2).2.
Proof.
  intros Hs. unfold HmacV1Auth.canonical_standard_headers.
  rewrite (sw_contains h1 h2 "Date" Hs).
  assert (same_up_to_whitespace
            (if HTTPHeaders.contains "Date" h2 then h1
             else HTTPHeaders.setitem "Date" (formatdate_gmt now) h1)
            (if HTTPHeaders.contains "Date" h2 then h2
             else HTTPHeaders.setitem "Date" (formatdate_gmt now) h2)) as Hs'.
  { destruct (HTTPHeaders.contains "Date" h2); [done|by apply sw_setitem]. }
  split; [|done]. cbn [fst]. f_equal.
  unfold HmacV1Auth.interesting_headers. cbn [flat_map].
  by rewrite !(standard_values_sw _ _ _ Hs').
Qed.

Lemma canonical_string_sw (now : Clock) (self : HmacV1Auth.self_t)
    (method : string) (split : Urllib.SplitResult) (h1 h2 : HTTPHeaders.t) :
  same_up_to_whitespace h1 h2 →
  (HmacV1Auth.canonical_string now self method split h1).1
  = (HmacV1Auth.canonical_string now self method split h2).1.
Proof.
  intros Hs. unfold HmacV1Auth.canonical_string.
  destruct (canonical_standard_headers_sw now h1 h2 Hs) as [Hstd Hs'].
  destruct (HmacV1Auth.canonical_standard_headers now h1) as [std1 h1'].
  destruct (HmacV1Auth.canonical_standard_headers now h2) as [std2 h2'].
  simpl in *. subst std2.
  by rewrite (canonical_custom_headers_sw h1' h2' Hs').
Qed.

Lemma get_signature_sw `{Hashlib} (now : Clock) (self : HmacV1Auth.self_t)
    (c : Credentials) (method : string) (split : Urllib.SplitResult)
    (h1 h2 : HTTPHeaders.t) :
  same_up_to_whitespace h1 h2 →
  (HmacV1Auth.get_signature now self c method split h1).1
  = (HmacV1Auth.get_signature now self c method split h2).1.
Proof.
  intros Hs. unfold HmacV1Auth.get_signature.
  match goal with
  | |- context [HmacV1Auth.canonical_string now self method split ?a] =>
      match goal with
      | |- (_ = (let '(_, _) := HmacV1Auth.canonical_string now self method split ?b in _).1) =>
          pose proof (canonical_string_sw now self method split a b) as Hcs
      end
  end.
  destruct (HmacV1Auth.canonical_string _ _ _ _ _) as [s1 h1'].
  destruct (HmacV1Auth.canonical_string _ _ _ _ _) as [s2 h2'].
  simpl in *. rewrite Hcs; [done|].
  destruct (token_truthy c); [by apply sw_setitem|done].
Qed.

(** *** The v4 signer *)

Lemma sorted_short (l : list string) : length l ≤ 1 → Py.sorted l = l.
Proof. destruct l as [|x [|y l]]; simpl; [done..|lia]. Qed.

Lemma not_contains_lower (k : string) (h : HTTPHeaders.t) :
  HTTPHeaders.contains k h = false →
  Py.lower k ∉ map (λ nv, Py.lower nv.1) h.
Proof.
  unfold HTTPHeaders.contains. induction h as [|[n v] h IH]; simpl.
  - intros _. apply not_elem_of_nil.
  - intros [Hm Hr]%orb_false_elim. apply not_elem_of_cons. split; [|by apply IH].
    unfold HTTPHeaders.matches in Hm. simpl in Hm.
    apply String.eqb_neq in Hm. congruence.
Qed.

Lemma get_all_unique (k : string) (h : HTTPHeaders.t) :
  NoDup (map (λ nv, Py.lower nv.1) h) → length (HTTPHeaders.get_all k h) ≤ 1.
Proof.
  unfold HTTPHeaders.get_all. induction h as [|[n v] h IH]; simpl; [lia|].
  intros [Hn Hd]%NoDup_cons. specialize (IH Hd).
  destruct (HTTPHeaders.matches k (n, v)) eqn:Em; [|done].
  simpl. assert (List.filter (HTTPHeaders.matches k) h = []) as ->; [|simpl; lia].
  clear IH Hd. induction h as [|[n' v'] h IH]; simpl; [done|].
  apply not_elem_of_cons in Hn as [Hne Hn]. rewrite (IH Hn).
  destruct (HTTPHeaders.matches k (n', v')) eqn:Em'; [|done].
  unfold HTTPHeaders.matches in Em, Em'. simpl in *.
  apply String.eqb_eq in Em, Em'. congruence.
Qed.

Lemma headers_to_sign_unique (r : Request) :
  NoDup (map (λ nv, Py.lower nv.1) (headers r)) →
  NoDup (map (λ nv, Py.lower nv.1) (SigV4Auth.headers_to_sign r)).
Proof.
  intros Hd. rewrite headers_to_sign_run, map_app, map_map. simpl.
  erewrite map_ext; [|intros a; apply lower_idem].
  unfold host_absent.
  destruct (HTTPHeaders.contains "host" (headers r)) eqn:Ec; simpl.
  - by rewrite app_nil_r.
  - apply NoDup_app. split; [done|]. split; [|apply NoDup_singleton].
    intros x Hx Hh. apply list_elem_of_singleton in Hh. subst x.
    by apply (not_contains_lower "host" (headers r) Ec).
Qed.

Lemma headers_to_sign_sw (r : Request) (h1 h2 : HTTPHeaders.t) :
  same_up_to_whitespace h1 h2 →
  same_up_to_whitespace (SigV4Auth.headers_to_sign (with_headers h1 r))
                        (SigV4Auth.headers_to_sign (with_headers h2 r)).
Proof.
  intros Hs. rewrite !headers_to_sign_run. unfold host_absent. simpl.
  rewrite (sw_contains h1 h2 "host" Hs).
  apply Forall2_app; [by apply sw_lowered|].
  destruct (HTTPHeaders.contains "host" h2); simpl; by repeat constructor.
Qed.

Lemma canonical_headers_sw (r : Request) (h1 h2 : HTTPHeaders.t) :
  same_up_to_whitespace h1 h2 →
  NoDup (map (λ nv, Py.lower nv.1) h1) →
  SigV4Auth.canonical_headers (SigV4Auth.headers_to_sign (with_headers h1 r))
  = SigV4Auth.canonical_headers (SigV4Auth.headers_to_sign (with_headers h2 r)).
Proof.
  intros Hs Hd.
  pose proof (headers_to_sign_sw r h1 h2 Hs) as HS.
  pose proof (headers_to_sign_unique (with_headers h1 r) Hd) as HD1.
  assert (NoDup (map (λ nv, Py.lower nv.1)
                     (SigV4Auth.headers_to_sign (with_headers h2 r)))) as HD2.
  { replace (map (λ nv, Py.lower nv.1) (SigV4Auth.headers_to_sign (with_headers h2 r)))
      with (map Py.lower (HTTPHeaders.iter (SigV4Auth.headers_to_sign (with_headers h2 r))))
      by (unfold HTTPHeaders.iter; by rewrite map_map).
    rewrite <- (sw_iter _ _ HS). unfold HTTPHeaders.iter. by rewrite map_map. }
  unfold SigV4Auth.canonical_headers, SigV4Auth.canonical_header_lines,
    SigV4Auth.sorted_header_names.
  rewrite (sw_iter _ _ HS). f_equal. apply map_ext. intros key.
  rewrite !sorted_short by (by apply get_all_unique).
  by rewrite (sw_get_all _ _ key HS).
Qed.

(** C10, as stated, fails for the v4 signer: values are sorted before
    they are stripped, so [" b", "a"] is rendered ["b,a"] while ["b", "a"]
    is rendered ["a,b"], and the two requests get different canonical
    header blocks. *)
Lemma sigv4_whitespace_changes_canonical_headers :
  let h1 := [("x-amz-meta", " b"); ("x-amz-meta", "a")] in
  let h2 := [("x-amz-meta", "b"); ("x-amz-meta", "a")] in
  same_up_to_whitespace h1 h2
  ∧ SigV4Auth.canonical_headers
      (SigV4Auth.headers_to_sign (Sample.request h1 BodyNone))
    = "host:host.foo.com" +:+ Py.LF +:+ "x-amz-meta:b,a"
  ∧ SigV4Auth.canonical_headers
      (SigV4Auth.headers_to_sign (Sample.request h2 BodyNone))
    = "host:host.foo.com" +:+ Py.LF +:+ "x-amz-meta:a,b"
  ∧ SigV4Auth.canonical_headers
      (SigV4Auth.headers_to_sign (Sample.request h1 BodyNone))
    ≠ SigV4Auth.canonical_headers
        (SigV4Auth.headers_to_sign (Sample.request h2 BodyNone)).
Proof.
  split; [by repeat constructor|].
  split; [vm_compute; reflexivity|].
  split; [vm_compute; reflexivity|]. vm_compute. discriminate.
Qed.

(** C10 (as the code has it).  Both computations strip surrounding
    whitespace from every header value.  The legacy S3 signer joins the
    stripped values of a name in header order, without sorting them: two
    header lists that differ only in such whitespace give the same
    custom-header block, the same string to sign and the same signature.
    The v4 signer sorts the values of a name as they stand and strips them
    afterwards: two such header lists give the same canonical-header block
    when no header name occurs twice. *)
Theorem header_whitespace_is_stripped `{Hashlib} (now : Clock)
    (self : HmacV1Auth.self_t) (c : Credentials) (r : Request)
    (h1 h2 : HTTPHeaders.t) :
  same_up_to_whitespace h1 h2 →
  HmacV1Auth.canonical_custom_headers h1 = HmacV1Auth.canonical_custom_headers h2
  ∧ (HmacV1Auth.canonical_string now self (method r) (url r) h1).1
    = (HmacV1Auth.canonical_string now self (method r) (url r) h2).1
  ∧ (HmacV1Auth.get_signature now self c (method r) (url r) h1).1
    = (HmacV1Auth.get_signature now self c (method r) (url r) h2).1
  ∧ (NoDup (map (λ nv, Py.lower nv.1) h1) →
     SigV4Auth.canonical_headers (SigV4Auth.headers_to_sign (with_headers h1 r))
     = SigV4Auth.canonical_headers (SigV4Auth.headers_to_sign (with_headers h2 r))).
Proof.
  intros Hs. split; [by apply canonical_custom_headers_sw|].
  split; [by apply canonical_string_sw|].
  split; [by apply get_signature_sw|].
  by apply canonical_headers_sw.
Qed.

Lemma header_whitespace_is_stripped_witness :
  let h1 := [("X-Amz-Meta-A", "  one "); ("Content-Type", "text/plain ");
             ("x-amz-acl", " private")] in
  let h2 := [("X-Amz-Meta-A", "one"); ("Content-Type", " text/plain");
             ("x-amz-acl", "private  ")] in
  let r := Sample.request [] BodyNone in
  let self := HmacV1Auth.mkSelf (Some Sample.creds) None in
  same_up_to_whitespace h1 h2
  ∧ NoDup (map (λ nv, Py.lower nv.1) h1)
  ∧ HmacV1Auth.canonical_custom_headers h1 = HmacV1Auth.canonical_custom_headers h2
  ∧ (HmacV1Auth.get_signature (H := Sample.hashes) Sample.now self Sample.creds
       (method r) (url r) h1).1
    = (HmacV1Auth.get_signature (H := Sample.hashes) Sample.now self Sample.creds
         (method r) (url r) h2).1
  ∧ SigV4Auth.canonical_headers (SigV4Auth.headers_to_sign (with_headers h1 r))
    = SigV4Auth.canonical_headers (SigV4Auth.headers_to_sign (with_headers h2 r)).
Proof.
  intros h1 h2 r self.
  assert (same_up_to_whitespace h1 h2) as Hs by (by repeat constructor).
  assert (NoDup (map (λ nv, Py.lower nv.1) h1)) as Hd.
  { vm_compute. apply (bool_decide_unpack _). vm_compute. exact I. }
  destruct (header_whitespace_is_stripped (H := Sample.hashes) Sample.now self
              Sample.creds r h1 h2 Hs) as (Hc & _ & Hg & H4).
  split; [done|]. split; [done|]. split; [done|]. split; [done|].
  by apply H4.
Defined.

Example hmacv1_canonical_custom_headers_example :
  HmacV1Auth.canonical_custom_headers
    [ ("X-Amz-Meta-B", " two "); ("Content-Type", "text/plain");
      ("x-amz-meta-b", "one"); ("X-Amz-Acl", " private") ]
  = "x-amz-acl:private" +:+ Py.LF +:+ "x-amz-meta-b:two,one".
Proof. vm_compute. reflexivity. Qed.

(** * Further properties of the signers *)

(** ** HTTPHeaders: more facts *)

Lemma get_all_delitem_other (name n : string) (h : HTTPHeaders.t) :
  String.eqb (Py.lower name) (Py.lower n) = false →
  HTTPHeaders.get_all name (HTTPHeaders.delitem n h) = HTTPHeaders.get_all name h.
Proof.
  intros Hne. unfold HTTPHeaders.get_all, HTTPHeaders.delitem.
  induction h as [|kv h IH]; [done|]. cbn [List.filter].
  destruct (HTTPHeaders.matches n kv) eqn:En; cbn [negb].
  - rewrite IH.
    destruct (HTTPHeaders.matches name kv) eqn:Em; [|done].
    rewrite (matches_trans_false name n kv Hne Em) in En. done.
  - cbn [List.filter]. destruct (HTTPHeaders.matches name kv); cbn [map];
      by rewrite IH.
Qed.

Lemma get_delitem_other (name n : string) (h : HTTPHeaders.t) :
  String.eqb (Py.lower name) (Py.lower n) = false →
  HTTPHeaders.get name (HTTPHeaders.delitem n h) = HTTPHeaders.get name h.
Proof.
  intros Hne. unfold HTTPHeaders.get, HTTPHeaders.delitem.
  induction h as [|kv h IH]; [done|]. cbn [List.filter List.find].
  destruct (HTTPHeaders.matches n kv) eqn:En; cbn [negb].
  - rewrite IH.
    destruct (HTTPHeaders.matches name kv) eqn:Em; [|done].
    rewrite (matches_trans_false name n kv Hne Em) in En. done.
  - cbn [List.find]. by destruct (HTTPHeaders.matches name kv).
Qed.

Lemma get_all_app (name : string) (h1 h2 : HTTPHeaders.t) :
  HTTPHeaders.get_all name (h1 ++ h2)
  = HTTPHeaders.get_all name h1 ++ HTTPHeaders.get_all name h2.
Proof. unfold HTTPHeaders.get_all. by rewrite List.filter_app, map_app. Qed.

Lemma count_app (name : string) (h1 h2 : HTTPHeaders.t) :
  HTTPHeaders.count name (h1 ++ h2)
  = HTTPHeaders.count name h1 + HTTPHeaders.count name h2.
Proof. unfold HTTPHeaders.count. by rewrite get_all_app, length_app. Qed.

(** ** SigV4Auth.add_auth: what it does to the request *)

Section SigV4Further.
Context `{Hashlib} `{BotocoreUtils}.

Lemma body_checksum_state (r : Request) :
  ∃ res, SigV4Auth.body_checksum r = (res, r).
Proof.
  rewrite body_checksum_run.
  destruct (HTTPHeaders.contains _ _); [|apply payload_state].
  destruct (HTTPHeaders.get _ _); by eexists.
Qed.

Lemma attach_signature_cases (self : SigV4Auth.self_t) (c : Credentials)
    (r : Request) :
  (∃ e, SigV4Auth.attach_signature self c r = (inl e, r))
  ∨ (∃ auth, SigV4Auth.attach_signature self c r
             = (inr tt, with_headers (headers r ++ [("Authorization", auth)]) r)).
Proof.
  destruct (body_checksum_state r) as [[e|v] Hres].
  - left. exists e. by apply sign_tail_fails.
  - right. destruct (sign_tail_pure self c r v Hres) as [auth ->]. by exists auth.
Qed.

(** The request after [sign_request]: the prepared headers, then the
    content hash header if the class is S3SigV4Auth and [payload] returned,
    then the Authorization header if the signature was computed. *)
Lemma sign_request_shape (self : SigV4Auth.self_t) (c : Credentials)
    (r : Request) :
  ∃ res tail,
    SigV4Auth.sign_request self c r
    = (res, with_headers (SigV4Auth.prepared_headers self c (headers r) ++ tail) r)
    ∧ Forall (λ kv, kv.1 = "X-Amz-Content-SHA256" ∨ kv.1 = "Authorization") tail.
Proof.
  unfold SigV4Auth.sign_request, SigV4Auth._add_headers_before_signing.
  set (hp := SigV4Auth.prepared_headers self c (headers r)).
  destruct (SigV4Auth.klass self).
  - unfold bind at 1. rewrite base_add_headers_run. fold hp.
    destruct (attach_signature_cases self c (with_headers hp r))
      as [[e ->]|[auth ->]].
    + exists (inl e), []. by rewrite app_nil_r.
    + exists (inr tt), [("Authorization", auth)]. split; [done|].
      constructor; [by right|constructor].
  - rewrite bind_assoc. unfold bind at 1. rewrite base_add_headers_run. fold hp.
    rewrite bind_assoc. unfold bind at 1.
    destruct (payload_state (with_headers hp r)) as [[e|d] ->].
    + exists (inl e), []. by rewrite app_nil_r.
    + unfold bind at 1. unfold modify_headers at 1.
      change (with_headers (HTTPHeaders.setitem "X-Amz-Content-SHA256" d
                              (headers (with_headers hp r))) (with_headers hp r))
        with (with_headers (hp ++ [("X-Amz-Content-SHA256", d)]) r).
      destruct (attach_signature_cases self c
                  (with_headers (hp ++ [("X-Amz-Content-SHA256", d)]) r))
        as [[e ->]|[auth ->]].
      * exists (inl e), [("X-Amz-Content-SHA256", d)]. split; [done|].
        constructor; [by left|constructor].
      * exists (inr tt), [("X-Amz-Content-SHA256", d); ("Authorization", auth)].
        split.
        { simpl. by rewrite <- (assoc_L (++)). }
        constructor; [by left|]. constructor; [by right|constructor].
Qed.


Lemma prepared_headers_amz_date (self : SigV4Auth.self_t) (c : Credentials)
    (h : HTTPHeaders.t) :
  HTTPHeaders.count "X-Amz-Date" (SigV4Auth.prepared_headers self c h)
  = HTTPHeaders.count "X-Amz-Date" h
    + (if HTTPHeaders.contains "Date" h then 0 else 1).
Proof.
  unfold SigV4Auth.prepared_headers.
  set (h1 := if HTTPHeaders.contains "Authorization" h
             then HTTPHeaders.delitem "Authorization" h else h).
  assert (HTTPHeaders.count "X-Amz-Date" h1 = HTTPHeaders.count "X-Amz-Date" h) as Hc1.
  { subst h1. destruct (HTTPHeaders.contains "Authorization" h); [|done].
    unfold HTTPHeaders.count. by rewrite get_all_delitem_other. }
  assert (HTTPHeaders.contains "Date" h1 = HTTPHeaders.contains "Date" h) as Hd1.
  { subst h1. destruct (HTTPHeaders.contains "Authorization" h); [|done].
    by apply contains_delitem_other. }
  rewrite Hd1.
  destruct (token_truthy c); destruct (HTTPHeaders.contains "Date" h);
    rewrite ?count_setitem, Hc1; simpl; lia.
Qed.

(** X3.  A request without a Date header gets one more X-Amz-Date header on
    every [add_auth]; those of earlier signings are not removed, so a
    request signed twice carries two.  With a Date header present no
    X-Amz-Date header is added. *)
Theorem sigv4_add_auth_accumulates_amz_date (now : Clock)
    (self : SigV4Auth.self_t) (c : Credentials) (r : Request) :
  SigV4Auth.credentials self = Some c →
  ∃ res self' r',
    SigV4Auth.add_auth now self r = (res, self', r')
    ∧ HTTPHeaders.count "X-Amz-Date" (headers r')
      = HTTPHeaders.count "X-Amz-Date" (headers r)
        + (if HTTPHeaders.contains "Date" (headers r) then 0 else 1).
Proof.
  intros Hc. unfold SigV4Auth.add_auth. rewrite Hc.
  destruct (sign_request_shape
              (SigV4Auth.set_timestamp (strftime_amz now) self) c r)
    as (res & tail & -> & Htail).
  eexists _, _, _. split; [done|]. simpl.
  rewrite count_app, prepared_headers_amz_date.
  assert (HTTPHeaders.count "X-Amz-Date" tail = 0) as ->; [|lia].
  clear -Htail. induction Htail as [|[n v] tail Hkv _ IH]; [done|].
  change ((n, v) :: tail) with ([(n, v)] ++ tail).
  rewrite count_app, IH. simpl in Hkv. by destruct Hkv as [->| ->].
Qed.

Lemma prepared_headers_get_sha (self : SigV4Auth.self_t) (c : Credentials)
    (h : HTTPHeaders.t) (v : string) :
  HTTPHeaders.get "X-Amz-Content-SHA256" h = Some v →
  HTTPHeaders.get "X-Amz-Content-SHA256" (SigV4Auth.prepared_headers self c h)
  = Some v.
Proof.
  intros Hg. unfold SigV4Auth.prepared_headers.
  set (h1 := if HTTPHeaders.contains "Authorization" h
             then HTTPHeaders.delitem "Authorization" h else h).
  assert (HTTPHeaders.get "X-Amz-Content-SHA256" h1 = Some v) as Hg1.
  { subst h1. destruct (HTTPHeaders.contains "Authorization" h); [|done].
    by rewrite get_delitem_other. }
  assert (∀ n x h', HTTPHeaders.get "X-Amz-Content-SHA256" h' = Some v →
            HTTPHeaders.get "X-Amz-Content-SHA256" (HTTPHeaders.setitem n x h')
            = Some v) as Hset.
  { intros n x h' Hh'. unfold HTTPHeaders.get, HTTPHeaders.setitem in *.
    induction h' as [|kv h' IH]; [done|]. simpl in *.
    destruct (HTTPHeaders.matches "X-Amz-Content-SHA256" kv); [done|by apply IH]. }
  destruct (token_truthy c); destruct (HTTPHeaders.contains "Date" h1); auto.
Qed.

Lemma get_contains (name : string) (h : HTTPHeaders.t) (v : string) :
  HTTPHeaders.get name h = Some v → HTTPHeaders.contains name h = true.
Proof.
  unfold HTTPHeaders.get, HTTPHeaders.contains.
  induction h as [|kv h IH]; simpl; [done|].
  destruct (HTTPHeaders.matches name kv); [done|apply IH].
Qed.

(** X4.  A request that already carries an X-Amz-Content-SHA256 header keeps
    it: once [_add_headers_before_signing] has returned, for either class,
    the payload hash that goes into the canonical request is the value of
    the first such header of the original request, also when the S3 class
    has just appended a freshly computed one. *)
Theorem sigv4_reuses_first_content_sha256 (self : SigV4Auth.self_t)
    (c : Credentials) (r r1 : Request) (v : string) :
  HTTPHeaders.get "X-Amz-Content-SHA256" (headers r) = Some v →
  SigV4Auth._add_headers_before_signing self c r = (inr tt, r1) →
  SigV4Auth.body_checksum r1 = (inr v, r1).
Proof.
  intros Hg. unfold SigV4Auth._add_headers_before_signing.
  pose proof (prepared_headers_get_sha self c (headers r) v Hg) as Hp.
  destruct (SigV4Auth.klass self).
  - rewrite base_add_headers_run. intros [= <-].
    rewrite body_checksum_run. simpl.
    by rewrite (get_contains _ _ _ Hp), Hp.
  - unfold bind at 1. rewrite base_add_headers_run. unfold bind at 1.
    destruct (payload_state
                (with_headers (SigV4Auth.prepared_headers self c (headers r)) r))
      as [[e|d] ->]; [done|].
    unfold modify_headers. intros [= <-].
    rewrite body_checksum_run. simpl.
    rewrite HTTPHeaders_get_setitem_old by (by apply (get_contains _ _ v)).
    rewrite contains_setitem, (get_contains _ _ _ Hp), Hp. done.
Qed.

End SigV4Further.

Lemma sigv4_add_auth_single_authorization_witness :
  let r := Sample.request [ ("Authorization", "AWS4-HMAC-SHA256 stale");
                            ("Content-Type", "text/plain");
                            ("authorization", "older") ] (BodyStr "data") in
  let self := SigV4Auth.mkSelf SigV4Auth.Plain (Some Sample.creds) ""
                "us-east-1" "ec2" in
  ∃ res self' r',
    SigV4Auth.add_auth (H := Sample.hashes) (H0 := Sample.utils)
      Sample.now self r = (res, self', r')
    ∧ HTTPHeaders.count "Authorization" (headers r')
      = match res with inr _ => 1 | inl _ => 0 end.
Proof.
  intros r self.
  apply (sigv4_add_auth_single_authorization (H := Sample.hashes)
           (H0 := Sample.utils) Sample.now self Sample.creds r).
  reflexivity.
Defined.


Lemma sigv4_add_auth_accumulates_amz_date_witness :
  let r := Sample.request [ ("X-Amz-Date", "20110909T233559Z");
                            ("Authorization", "AWS4-HMAC-SHA256 stale") ]
             BodyNone in
  let self := SigV4Auth.mkSelf SigV4Auth.Plain (Some Sample.creds) ""
                "us-east-1" "ec2" in
  ∃ res self' r',
    SigV4Auth.add_auth (H := Sample.hashes) (H0 := Sample.utils)
      Sample.now self r = (res, self', r')
    ∧ HTTPHeaders.count "X-Amz-Date" (headers r') = 2.
Proof.
  intros r self.
  apply (sigv4_add_auth_accumulates_amz_date (H := Sample.hashes)
           (H0 := Sample.utils) Sample.now self Sample.creds r).
  reflexivity.
Defined.

Lemma sigv4_reuses_first_content_sha256_witness :
  let r := Sample.request [("X-Amz-Content-SHA256", "stale")]
             (BodyStr "new body") in
  let self := SigV4Auth.mkSelf SigV4Auth.S3 (Some Sample.creds)
                "20110909T233600Z" "us-east-1" "s3" in
  let r1 := with_headers
              [ ("X-Amz-Content-SHA256", "stale");
                ("X-Amz-Date", "20110909T233600Z");
                ("X-Amz-Content-SHA256",
                 SigV4Auth.sha256_hexdigest (H := Sample.hashes) "new body") ]
              r in
  SigV4Auth.body_checksum (H := Sample.hashes) r1 = (inr "stale", r1).
Proof.
  intros r self r1.
  apply (sigv4_reuses_first_content_sha256 (H := Sample.hashes)
           self Sample.creds r r1 "stale"); reflexivity.
Defined.

(** ** SigV4Auth.signed_headers *)

Lemma isspace_lower_char (c : ascii) :
  Py.isspace (Py.lower_char c) = Py.isspace c.
Proof. by destruct c as [[] [] [] [] [] [] [] []]. Qed.

Lemma lstrip_lower (s : string) : Py.lstrip (Py.lower s) = Py.lower (Py.lstrip s).
Proof.
  induction s as [|c s IH]; [done|]. cbn [Py.lower Py.lstrip].
  rewrite isspace_lower_char. by destruct (Py.isspace c).
Qed.

Lemma rstrip_lower (s : string) : Py.rstrip (Py.lower s) = Py.lower (Py.rstrip s).
Proof.
  induction s as [|c s IH]; [done|]. cbn [Py.lower Py.rstrip].
  rewrite IH, isspace_lower_char.
  destruct (Py.rstrip s) as [|d t]; cbn [Py.lower]; [|done].
  by destruct (Py.isspace c).
Qed.

Lemma strip_lower (s : string) : Py.strip (Py.lower s) = Py.lower (Py.strip s).
Proof. unfold Py.strip. by rewrite lstrip_lower, rstrip_lower. Qed.

Lemma host_covered (r : Request) : "host" ∈ covered_names r.
Proof.
  unfold covered_names. rewrite sorted_elem_of, elem_of_remove_dups, elem_of_app.
  unfold host_absent.
  destruct (HTTPHeaders.contains "host" (headers r)) eqn:Ec.
  - left. unfold HTTPHeaders.contains in Ec.
    apply existsb_exists in Ec as ([n v] & Hin & Hm).
    unfold HTTPHeaders.matches in Hm. simpl in Hm. apply String.eqb_eq in Hm.
    apply list_elem_of_fmap. exists (n, v). split; [done|].
    by apply list_elem_of_In.
  - right. simpl. by apply list_elem_of_singleton.
Qed.

(** X5.  When no header name of the request carries surrounding whitespace, the
    SignedHeaders value lists exactly the names of the lines of the
    canonical-headers block, in the same order, [host] among them. *)
Theorem sigv4_signed_headers_match_canonical (r : Request) :
  Forall (λ nv, Py.strip nv.1 = nv.1) (headers r) →
  SigV4Auth.signed_headers (SigV4Auth.headers_to_sign r)
  = Py.join ";" (covered_names r)
  ∧ "host" ∈ covered_names r
  ∧ SigV4Auth.canonical_header_lines (SigV4Auth.headers_to_sign r)
    = map (λ k, k +:+ ":" +:+
                Py.join "," (map Py.strip (Py.sorted (covered_values r k))))
          (covered_names r).
Proof.
  intros Hns. split; [|split; [apply host_covered|]].
  - unfold SigV4Auth.signed_headers, covered_names, HTTPHeaders.iter.
    rewrite headers_to_sign_run, map_app, map_map. simpl.
    set (X := map (λ nv, Py.lower nv.1) (headers r)
              ++ map fst (if host_absent r
                          then [("host", Urllib.netloc (url r))] else [])).
    assert (Forall (λ n, Py.strip (Py.lower n) = n) X) as HX.
    { subst X. apply Forall_app. split.
      - apply Forall_fmap. eapply Forall_impl; [exact Hns|].
        intros [n v] Hn. simpl in *. by rewrite lower_idem, strip_lower, Hn.
      - destruct (host_absent r); simpl; [|constructor].
        constructor; [reflexivity|constructor]. }
    assert (map (λ n, Py.strip (Py.lower n)) (remove_dups X) = remove_dups X) as ->.
    { transitivity (map id (remove_dups X)); [|apply map_id]. apply map_ext_in.
      intros n Hn. apply list_elem_of_In in Hn.
      rewrite elem_of_remove_dups in Hn.
      rewrite Forall_forall in HX. exact (HX n Hn). }
    subst X. by destruct (host_absent r).
  - unfold SigV4Auth.canonical_header_lines.
    rewrite headers_to_sign_names. apply map_ext. intros k.
    by rewrite headers_to_sign_values.
Qed.

Lemma sigv4_signed_headers_match_canonical_witness :
  let r := Sample.request [ ("X-Amz-Date", "20110909T233600Z");
                            ("Zoo", "z"); ("zoo", "a") ] BodyNone in
  SigV4Auth.signed_headers (SigV4Auth.headers_to_sign r)
  = "host;x-amz-date;zoo".
Proof.
  intros r.
  destruct (sigv4_signed_headers_match_canonical r) as [Heq _].
  { repeat (constructor; [reflexivity|]). constructor. }
  rewrite Heq. reflexivity.
Defined.

(** ** SigV3Auth.add_auth and SigV2Auth.add_auth *)

(** X6.  With credentials, SigV3Auth.add_auth always returns.  It only appends
    headers: a Date header from the clock when the request has none, the
    session token when there is one, and X-Amzn-Authorization, whose
    signature is the HMAC of the request's first Date header if it had
    one, and of the clock's date otherwise. *)
Theorem sigv3_add_auth_result `{Hashlib} (now : Clock) (c : Credentials)
    (r : Request) :
  let date := default (formatdate_gmt now) (HTTPHeaders.get "Date" (headers r)) in
  let added :=
    (if HTTPHeaders.contains "Date" (headers r) then []
     else [("Date", formatdate_gmt now)])
    ++ match token_truthy c with
       | Some t => [("X-Amz-Security-Token", t)]
       | None => []
       end in
  SigV3Auth.add_auth now (SigV3Auth.mkSelf (Some c)) r
  = (inr tt,
     with_headers
       (headers r ++ added
        ++ [("X-Amzn-Authorization",
             "AWS3-HTTPS AWSAccessKeyId=" +:+ access_key c +:+
             ",Algorithm=HmacSHA256,Signature=" +:+
             Py.strip (Base64.encodestring (hmac_sha256 (secret_key c) date)))])
       r).
Proof.
  unfold SigV3Auth.add_auth, bind, get_request, modify_headers, ret, raise.
  simpl. destruct r as [m u h ps p d b]. simpl.
  destruct (HTTPHeaders.contains "Date" h) eqn:Ed; simpl.
  - destruct (contains_get _ _ Ed) as [dv Hdv].
    destruct (token_truthy c) as [t|]; simpl.
    + rewrite (HTTPHeaders_get_setitem_old "Date" _ _ h Ed), Hdv. simpl.
      unfold HTTPHeaders.setitem. by rewrite <- !(assoc_L (++)).
    + rewrite Hdv. simpl. unfold HTTPHeaders.setitem. done.
  - assert (HTTPHeaders.get "Date" h = None) as ->.
    { unfold HTTPHeaders.get, HTTPHeaders.contains in *.
      induction h as [|kv h IH]; [done|]. simpl in *.
      destruct (HTTPHeaders.matches "Date" kv); [done|by apply IH]. }
    destruct (token_truthy c) as [t|]; simpl.
    + rewrite (HTTPHeaders_get_setitem_old "Date" _ _
                 (HTTPHeaders.setitem "Date" (formatdate_gmt now) h))
        by (rewrite contains_setitem; by rewrite orb_true_r).
      rewrite get_setitem_fresh by done. simpl.
      unfold HTTPHeaders.setitem. by rewrite <- !(assoc_L (++)).
    + rewrite get_setitem_fresh by done. simpl.
      unfold HTTPHeaders.setitem. by rewrite <- !(assoc_L (++)).
Qed.

(** X7.  With credentials, SigV2Auth.add_auth always returns and changes only
    one dict of the request: [data] when it is non-empty, [param]
    otherwise.  That dict receives the four fixed parameters, the session
    token when there is one, and last the Signature, which is computed by
    [calc_signature] over the dict as it stands just before: every other
    key keeps its value, and a Signature left by an earlier signing is part
    of what is signed. *)
Theorem sigv2_add_auth_params `{Hashlib} (now : Clock) (c : Credentials)
    (r : Request) :
  let post := dict_truthy (data r) in
  let d := if post then data r else param r in
  ∃ signed : gmap string string,
    SigV2Auth.add_auth now (SigV2Auth.mkSelf (Some c)) r
    = (inr tt,
       let d' := <["Signature" := (SigV2Auth.calc_signature c r signed).2]> signed in
       if post then with_data d' r else with_param d' r)
    ∧ signed !! "AWSAccessKeyId" = Some (access_key c)
    ∧ signed !! "SignatureVersion" = Some "2"
    ∧ signed !! "SignatureMethod" = Some "HmacSHA256"
    ∧ signed !! "Timestamp" = Some (isoformat now)
    ∧ signed !! "SecurityToken"
      = match token_truthy c with
        | Some t => Some t
        | None => d !! "SecurityToken"
        end
    ∧ (∀ k, k ∉ [ "AWSAccessKeyId"; "SignatureVersion"; "SignatureMethod";
                  "Timestamp"; "SecurityToken" ] →
            signed !! k = d !! k).
Proof.
  intros post d.
  set (base := <["Timestamp" := isoformat now]>
                 (<["SignatureMethod" := "HmacSHA256"]>
                    (<["SignatureVersion" := "2"]>
                       (<["AWSAccessKeyId" := access_key c]> d)))).
  exists (match token_truthy c with
          | Some t => <["SecurityToken" := t]> base
          | None => base
          end).
  split.
  { unfold SigV2Auth.add_auth. simpl. fold post. subst base d.
    destruct post; by destruct (token_truthy c). }
  assert (∀ k v m, k ≠ "SecurityToken" →
            (match token_truthy c with
             | Some t => <["SecurityToken" := t]> m
             | None => m
             end : gmap string string) !! k = Some v ↔ m !! k = Some v) as Htok.
  { intros k v m Hk. destruct (token_truthy c); [|done].
    by rewrite lookup_insert_ne. }
  split; [apply Htok; [discriminate|]; subst base;
          rewrite !lookup_insert_ne by discriminate; apply lookup_insert_eq|].
  split; [apply Htok; [discriminate|]; subst base;
          rewrite !lookup_insert_ne by discriminate; apply lookup_insert_eq|].
  split; [apply Htok; [discriminate|]; subst base;
          rewrite !lookup_insert_ne by discriminate; apply lookup_insert_eq|].
  split; [apply Htok; [discriminate|]; subst base; apply lookup_insert_eq|].
  split.
  { destruct (token_truthy c); [apply lookup_insert_eq|].
    subst base. by rewrite !lookup_insert_ne by discriminate. }
  intros k Hk.
  assert (k ≠ "AWSAccessKeyId" ∧ k ≠ "SignatureVersion" ∧ k ≠ "SignatureMethod"
          ∧ k ≠ "Timestamp" ∧ k ≠ "SecurityToken") as (H1 & H2 & H3 & H4 & H5).
  { repeat split; intros ->; apply Hk; apply list_elem_of_In; simpl; tauto. }
  transitivity (base !! k).
  - destruct (token_truthy c); [|done]. by rewrite lookup_insert_ne.
  - subst base. by rewrite !lookup_insert_ne.
Qed.

(** ** Percent-encoding and decoding *)

Lemma unquote_pct (c : ascii) (rest : string) :
  Urllib.unquote (Urllib.pct c +:+ rest) = String c (Urllib.unquote rest).
Proof. by destruct c as [[] [] [] [] [] [] [] []]. Qed.

Lemma unquote_quoter (safe : string) (c : ascii) (rest : string) :
  Py.char_in "%" safe = false →
  Urllib.unquote (Urllib.quoter safe c +:+ rest) = String c (Urllib.unquote rest).
Proof.
  intros Hsafe. unfold Urllib.quoter.
  destruct (Py.char_in c safe || Py.char_in c Urllib.always_safe) eqn:E;
    [|apply unquote_pct].
  destruct (Ascii.eqb_spec c "%") as [->|Hc].
  { rewrite Hsafe in E. vm_compute in E. discriminate. }
  change (String c "" +:+ rest) with (String c rest). cbn [Urllib.unquote].
  apply Ascii.eqb_neq in Hc. by rewrite Hc.
Qed.

Lemma unquote_quote (s safe : string) :
  Py.char_in "%" safe = false → Urllib.unquote (Urllib.quote s safe) = s.
Proof.
  intros Hsafe. induction s as [|c s IH]; [done|]. cbn [Urllib.quote].
  by rewrite unquote_quoter, IH.
Qed.

(** X8.  Percent-decoding undoes percent-encoding for every safe set without
    ['%'], so the value canonicalisation [quote(unquote(v))] of
    [_canonical_query_string_url] is idempotent: a value that is already in
    canonical form is left as it is, not encoded a second time. *)
Theorem canonical_value_encoding_round_trip (safe s v : string) :
  Py.char_in "%" safe = false →
  Urllib.unquote (Urllib.quote s safe) = s
  ∧ Urllib.quote (Urllib.unquote (Urllib.quote (Urllib.unquote v) safe)) safe
    = Urllib.quote (Urllib.unquote v) safe.
Proof.
  intros Hsafe. split; [by apply unquote_quote|]. by rewrite unquote_quote.
Qed.

Lemma canonical_value_encoding_round_trip_witness :
  Urllib.unquote (Urllib.quote "a b/c%7E&d=100%" "-_.~") = "a b/c%7E&d=100%"
  ∧ Urllib.quote (Urllib.unquote
      (Urllib.quote (Urllib.unquote "x%20y%zz+~") "-_.~")) "-_.~"
    = Urllib.quote (Urllib.unquote "x%20y%zz+~") "-_.~".
Proof.
  apply (canonical_value_encoding_round_trip "-_.~"). reflexivity.
Defined.

(** ** The read loop of [payload], in closed form *)

Lemma read_loop_final_pos (n : N) (f : Stream) (acc : string) :
  (0 < n)%N →
  (SigV4Auth.read_loop n f acc).2
  = File.at_pos (Nat.max (pos f) (String.length (content f))) f.
Proof.
  intros Hn. funelim (SigV4Auth.read_loop n f acc).
  - rewrite H by done. clear H H0 Heqcall.
    unfold File.read, File.rest in *. simpl in *.
    pose proof (length_takeN (Py.drop (pos f) (content f)) n) as Hlen.
    rewrite length_drop in Hlen.
    destruct (Py.takeN n (Py.drop (pos f) (content f))) as [|ch t] eqn:Et;
      [done|]. simpl in Hlen |- *.
    unfold File.at_pos. simpl. f_equal. lia.
  - clear H Heqcall. simpl. unfold File.read, File.rest in *. simpl in *.
    destruct (Py.takeN n (Py.drop (pos f) (content f))) eqn:Et; [|done].
    apply takeN_empty in Et; [|done].
    pose proof (length_drop (pos f) (content f)) as Hd. rewrite Et in Hd.
    simpl in Hd. unfold File.at_pos. simpl. f_equal. lia.
Qed.

(** X9.  For every positive buffer size the loop feeds the checksum the bytes
    from the read position to the end of the data, once and in order, and
    leaves the stream at its end (or where it was, if that was already
    past the end): the digest does not depend on the buffer size. *)
Theorem read_loop_closed_form (n : N) (f : Stream) (acc : string) :
  (0 < n)%N →
  SigV4Auth.read_loop n f acc
  = (acc +:+ File.rest f,
     File.at_pos (Nat.max (pos f) (String.length (content f))) f).
Proof.
  intros Hn. rewrite (surjective_pairing (SigV4Auth.read_loop n f acc)).
  by rewrite read_loop_all, read_loop_final_pos.
Qed.

Lemma read_loop_closed_form_witness :
  SigV4Auth.read_loop 3 (mkStream "hello world" 2 true true) "seen:"
  = ("seen:llo world", mkStream "hello world" 11 true true).
Proof. apply (read_loop_closed_form 3). reflexivity. Defined.

(** ** base64.encodestring and HmacV1Auth.sign_string *)

Lemma take_all (n : nat) (s : string) :
  String.length s ≤ n → Py.take n s = s.
Proof.
  revert s. induction n as [|n IH]; intros [|c s]; simpl; try done; try lia.
  intros ?. rewrite IH; [done|lia].
Qed.

Lemma encode_lines_empty (fuel : nat) : Base64.encode_lines fuel "" = "".
Proof. by destruct fuel. Qed.

Lemma encodestring_short (s : string) :
  String.length s ≤ 57 →
  Base64.encodestring s
  = match s with
    | EmptyString => EmptyString
    | _ => Base64.b64encode s +:+ Py.LF
    end.
Proof.
  intros Hlen. unfold Base64.encodestring.
  destruct s as [|c s]; [done|].
  cbn [String.length Base64.encode_lines].
  rewrite take_all by done. rewrite drop_all by done.
  by rewrite encode_lines_empty.
Qed.

Lemma rstrip_app_LF (s : string) :
  Py.no_space s → Py.rstrip (s +:+ Py.LF) = s.
Proof.
  induction s as [|c s IH]; [done|]. intros [Hc Hs].
  change (String c s +:+ Py.LF) with (String c (s +:+ Py.LF)).
  cbn [Py.rstrip]. rewrite IH by done. rewrite Hc. by destruct s.
Qed.

Lemma strip_encodestring_short (s : string) :
  String.length s ≤ 57 → Py.strip (Base64.encodestring s) = Base64.b64encode s.
Proof.
  intros Hlen. rewrite encodestring_short by done.
  destruct s as [|c s]; [done|].
  pose proof (b64encode_no_space_aux (String c s)) as [Hns _].
  unfold Py.strip.
  assert (Py.lstrip (Base64.b64encode (String c s) +:+ Py.LF)
          = Base64.b64encode (String c s) +:+ Py.LF) as ->.
  { destruct (Base64.b64encode (String c s)) as [|x t] eqn:Eb.
    - by destruct s as [|c1 [|c2 s]].
    - destruct Hns as [Hx _]. simpl. by rewrite Hx. }
  by apply rstrip_app_LF.
Qed.

(** X10.  When the HMAC-SHA1 digest has at most 57 bytes (a real one has 20),
    the signature that HmacV1Auth.sign_string returns is exactly the base64
    encoding of the digest: [encodestring] adds a single trailing newline
    and [strip] removes it, so the Authorization value holds no line
    break. *)
Theorem hmacv1_sign_string_is_b64 `{Hashlib} (c : Credentials)
    (string_to_sign : string) :
  String.length (hmac_sha1 (secret_key c) string_to_sign) ≤ 57 →
  HmacV1Auth.sign_string c string_to_sign
  = Base64.b64encode (hmac_sha1 (secret_key c) string_to_sign)
  ∧ Py.no_space (HmacV1Auth.sign_string c string_to_sign).
Proof.
  intros Hlen. unfold HmacV1Auth.sign_string.
  rewrite strip_encodestring_short by done.
  split; [done|]. apply b64encode_no_space_aux.
Qed.

Lemma hmacv1_sign_string_is_b64_witness :
  HmacV1Auth.sign_string (H := Sample.hashes) Sample.creds "GET"
  = Base64.b64encode "hmac-sha1(secret,GET)".
Proof.
  apply (hmacv1_sign_string_is_b64 (H := Sample.hashes) Sample.creds "GET").
  vm_compute. lia.
Defined.

(** ** HmacV1Auth: the standard and the custom headers *)

Lemma get_same_lower (key ih : string) (h : HTTPHeaders.t) :
  Py.lower key = Py.lower ih → HTTPHeaders.get key h = HTTPHeaders.get ih h.
Proof.
  intros Hk. unfold HTTPHeaders.get. f_equal.
  induction h as [|kv h IH]; [done|]. cbn [List.find].
  unfold HTTPHeaders.matches at 1 3. by rewrite Hk, IH.
Qed.

Lemma get_all_same_lower (key ih : string) (h : HTTPHeaders.t) :
  Py.lower key = Py.lower ih →
  HTTPHeaders.get_all key h = HTTPHeaders.get_all ih h.
Proof.
  intros Hk. unfold HTTPHeaders.get_all. f_equal.
  induction h as [|kv h IH]; [done|]. cbn [List.filter].
  unfold HTTPHeaders.matches at 1 3. by rewrite Hk, IH.
Qed.

Lemma get_none_count (name : string) (h : HTTPHeaders.t) :
  HTTPHeaders.get name h = None → HTTPHeaders.count name h = 0.
Proof.
  unfold HTTPHeaders.get, HTTPHeaders.count, HTTPHeaders.get_all.
  induction h as [|kv h IH]; [done|]. simpl.
  destruct (HTTPHeaders.matches name kv); [done|apply IH].
Qed.

Lemma get_some_count (name v : string) (h : HTTPHeaders.t) :
  HTTPHeaders.get name h = Some v → 0 < HTTPHeaders.count name h.
Proof.
  unfold HTTPHeaders.get, HTTPHeaders.count, HTTPHeaders.get_all.
  induction h as [|kv h IH]; [done|]. simpl.
  destruct (HTTPHeaders.matches name kv); simpl; [lia|apply IH].
Qed.

Lemma standard_values_spec (ih : string) (h : HTTPHeaders.t) :
  Py.lower ih = ih →
  HmacV1Auth.standard_values ih h
  = match HTTPHeaders.get ih h with
    | Some v => replicate (HTTPHeaders.count ih h) (Py.strip v)
    | None => [""]
    end.
Proof.
  intros Hih. unfold HmacV1Auth.standard_values.
  set (x := match HTTPHeaders.get ih h with
            | Some v => [Py.strip v] | None => [] end).
  assert (flat_map (λ key,
            if String.eqb (Py.lower key) ih then
              match HTTPHeaders.get key h with
              | Some v => [Py.strip v] | None => [] end
            else []) (HTTPHeaders.iter h)
          = flat_map (λ _, x) (List.filter (HTTPHeaders.matches ih) h)) as ->.
  { unfold HTTPHeaders.iter. generalize h at 2 3. intros l.
    induction l as [|[n v] l IH]; [done|]. cbn [map flat_map List.filter fst].
    unfold HTTPHeaders.matches at 1. cbn [fst]. rewrite Hih.
    destruct (String.eqb_spec (Py.lower n) ih) as [Hn|Hn].
    - cbn [flat_map]. rewrite IH. f_equal. subst x.
      rewrite (get_same_lower n ih h); [done|]. by rewrite Hih.
    - apply IH. }
  unfold HTTPHeaders.count, HTTPHeaders.get_all. rewrite length_map.
  pose proof (get_none_count ih h) as Hnone.
  pose proof (get_some_count ih) as Hsome.
  unfold HTTPHeaders.count, HTTPHeaders.get_all in Hnone, Hsome.
  rewrite length_map in Hnone. subst x.
  destruct (HTTPHeaders.get ih h) as [v|] eqn:Eg.
  - specialize (Hsome v h Eg). rewrite length_map in Hsome.
    destruct (List.filter (HTTPHeaders.matches ih) h) as [|kv l]; [simpl in Hsome; lia|].
    clear. simpl. f_equal. induction l as [|a l IH]; [done|]. simpl. by rewrite IH.
  - specialize (Hnone eq_refl).
    by destruct (List.filter (HTTPHeaders.matches ih) h).
Qed.

(** X11.  HmacV1Auth.canonical_standard_headers adds a Date header from the
    clock when the request has none, and then gives, for content-md5,
    content-type and date in this order, the stripped value of the first
    header of that name, once for every header of that name (a header given
    twice contributes its first value twice), or one empty line when there
    is no such header; the date part is therefore never missing. *)
Theorem hmacv1_canonical_standard_headers_spec (now : Clock)
    (h : HTTPHeaders.t) :
  let h' := if HTTPHeaders.contains "Date" h then h
            else HTTPHeaders.setitem "Date" (formatdate_gmt now) h in
  let part ih :=
    match HTTPHeaders.get ih h' with
    | Some v => replicate (HTTPHeaders.count ih h') (Py.strip v)
    | None => [""]
    end in
  HmacV1Auth.canonical_standard_headers now h
  = (Py.join Py.LF (part "content-md5" ++ part "content-type" ++ part "date"), h')
  ∧ is_Some (HTTPHeaders.get "date" h').
Proof.
  intros h' part. split.
  - unfold HmacV1Auth.canonical_standard_headers. fold h'. f_equal. f_equal.
    unfold HmacV1Auth.interesting_headers. cbn [flat_map].
    rewrite !standard_values_spec by reflexivity. by rewrite app_nil_r.
  - apply contains_get. subst h'.
    destruct (HTTPHeaders.contains "Date" h) eqn:Ed; [exact Ed|].
    rewrite contains_setitem. by rewrite orb_true_r.
Qed.

Example hmacv1_canonical_standard_headers_example :
  (HmacV1Auth.canonical_standard_headers Sample.now
     [ ("Date", " d1 "); ("Content-Type", "text/plain"); ("date", "d2") ]).1
  = Py.LF +:+ "text/plain" +:+ Py.LF +:+ "d1" +:+ Py.LF +:+ "d1".
Proof. vm_compute. reflexivity. Qed.

Lemma get_of_iter (key : string) (h : HTTPHeaders.t) :
  key ∈ HTTPHeaders.iter h → is_Some (HTTPHeaders.get key h).
Proof.
  intros Hin. apply contains_get. unfold HTTPHeaders.contains, HTTPHeaders.iter in *.
  apply list_elem_of_fmap in Hin as ([n v] & -> & Hin).
  apply existsb_exists. exists (n, v). split; [by apply list_elem_of_In|].
  unfold HTTPHeaders.matches. apply String.eqb_refl.
Qed.

(** The dict built by the loop of [canonical_custom_headers], key by
    key. *)
Lemma custom_headers_fold_lookup (h : HTTPHeaders.t) (ks : list string)
    (m : gmap string string) (k : string) :
  (∀ key, key ∈ ks → is_Some (HTTPHeaders.get key h)) →
  foldl (λ (m : gmap string string) key,
           let lk := Py.lower key in
           match HTTPHeaders.get key h with
           | Some _ =>
               if Py.startswith lk "x-amz-"
               then <[lk := Py.join "," (map Py.strip (HTTPHeaders.get_all key h))]> m
               else m
           | None => m
           end) m ks !! k
  = if decide (k ∈ List.filter (λ k, Py.startswith k "x-amz-") (map Py.lower ks))
    then Some (Py.join "," (map Py.strip (HTTPHeaders.get_all k h)))
    else m !! k.
Proof.
  revert m. induction ks as [|key ks IH]; intros m Hks.
  { cbn [foldl map List.filter].
    rewrite decide_False; [done|apply not_elem_of_nil]. }
  cbn [foldl map List.filter]. rewrite IH by (intros ? ?; apply Hks; by right).
  destruct (Hks key) as [v0 ->]; [by left|].
  destruct (Py.startswith (Py.lower key) "x-amz-") eqn:Ep.
  - case_decide as Hin.
    + rewrite decide_True by (by right). done.
    + destruct (decide (k = Py.lower key)) as [->|Hne].
      * rewrite decide_True by (by left). rewrite lookup_insert_eq.
        rewrite (get_all_same_lower (Py.lower key) key h); [done|].
        apply lower_idem.
      * rewrite decide_False.
        { by rewrite lookup_insert_ne. }
        intros [?|?]%elem_of_cons; done.
  - done.
Qed.

(** X12.  HmacV1Auth.canonical_custom_headers has one line per distinct
    lowercased header name that starts with [x-amz-], the lines in
    ascending order of name; the value part of a line is every value of
    that name (whatever the case it was written in), each stripped, joined
    with commas in the order of the headers.  No other header appears. *)
Theorem hmacv1_canonical_custom_headers_spec (h : HTTPHeaders.t) :
  HmacV1Auth.canonical_custom_headers h
  = Py.join Py.LF
      (map (λ k, k +:+ ":" +:+
                 Py.join "," (map Py.strip (HTTPHeaders.get_all k h)))
           (Py.sorted
              (remove_dups
                 (List.filter (λ k, Py.startswith k "x-amz-")
                    (map Py.lower (HTTPHeaders.iter h)))))).
Proof.
  unfold HmacV1Auth.canonical_custom_headers.
  set (names := List.filter (λ k, Py.startswith k "x-amz-")
                  (map Py.lower (HTTPHeaders.iter h))).
  assert (∀ k, HmacV1Auth.custom_headers h !! k
               = if decide (k ∈ names)
                 then Some (Py.join "," (map Py.strip (HTTPHeaders.get_all k h)))
                 else None) as Hlook.
  { intros k. unfold HmacV1Auth.custom_headers.
    rewrite custom_headers_fold_lookup by (intros ? ?; by apply get_of_iter).
    fold names. by rewrite lookup_empty. }
  assert (keys (HmacV1Auth.custom_headers h) ≡ₚ remove_dups names) as Hperm.
  { apply NoDup_Permutation; [apply keys_NoDup|apply NoDup_remove_dups|].
    intros k. rewrite elem_of_keys, elem_of_remove_dups, Hlook.
    destruct (decide (k ∈ names)) as [Hin|Hnin].
    - split; [done|]. intros _. by eexists.
    - split; [|done]. intros [? ?]. done. }
  rewrite (sorted_unique _ _ Hperm). f_equal. apply map_ext_in.
  intros k Hk. apply list_elem_of_In in Hk.
  rewrite sorted_elem_of, elem_of_remove_dups in Hk.
  rewrite (lookup_total_correct _ _ _ (eq_trans (Hlook k) (decide_True _ _ Hk))).
  done.
Qed.

(** ** HmacV1Auth: the resource without interesting arguments, and add_auth *)

(** X13.  When no field of the query has a key on the QSAOfInterest list (in
    particular when the query is empty), the canonical resource is the
    resource path alone: no ['?'] and nothing of the query is added. *)
Theorem hmacv1_canonical_resource_path_only (self : HmacV1Auth.self_t)
    (split : Urllib.SplitResult) :
  Forall (λ a, Py.itemgetter0 a ∉ HmacV1Auth.QSAOfInterest)
         (HmacV1Auth.query_fields (Urllib.query split)) →
  HmacV1Auth.canonical_resource self split = HmacV1Auth.resource_path self split.
Proof.
  intros Hnone. unfold HmacV1Auth.canonical_resource.
  destruct (Py.truthy (Urllib.query split)); [|done].
  assert (HmacV1Auth.qsa_of_interest (Urllib.query split) = []) as ->; [|done].
  unfold HmacV1Auth.qsa_of_interest.
  induction Hnone as [|a l Ha _ IH]; [done|]. cbn [List.filter].
  unfold HmacV1Auth.of_interest at 1. by rewrite bool_decide_eq_false_2.
Qed.

Lemma hmacv1_canonical_resource_path_only_witness :
  HmacV1Auth.canonical_resource (HmacV1Auth.mkSelf None (Some "/bucket/key"))
    (Sample.split "/key" "foo=bar&prefix=a%2Fb&ACL")
  = "/bucket/key".
Proof.
  apply (hmacv1_canonical_resource_path_only
           (HmacV1Auth.mkSelf None (Some "/bucket/key"))
           (Sample.split "/key" "foo=bar&prefix=a%2Fb&ACL")).
  apply (bool_decide_unpack _). vm_compute. exact I.
Defined.

(** X14.  With credentials, HmacV1Auth.add_auth always returns and only appends
    headers, in this order: the session token (as x-amz-security-token)
    when there is one, a Date header from the clock when the request has
    none, and the Authorization header ["AWS <access key>:<signature>"],
    the signature being that of the canonical string of the headers with
    the token already added. *)
Theorem hmacv1_add_auth_result `{Hashlib} (now : Clock) (ap : option string)
    (c : Credentials) (r : Request) :
  let self := HmacV1Auth.mkSelf (Some c) ap in
  let h1 :=
    headers r ++ match token_truthy c with
                 | Some t => [("x-amz-security-token", t)]
                 | None => []
                 end in
  let h2 :=
    h1 ++ (if HTTPHeaders.contains "Date" (headers r) then []
           else [("Date", formatdate_gmt now)]) in
  let string_to_sign :=
    (HmacV1Auth.canonical_string now self (method r) (url r) h1).1 in
  HmacV1Auth.add_auth now self r
  = (inr tt,
     with_headers
       (h2 ++ [("Authorization",
                "AWS " +:+ access_key c +:+ ":" +:+
                HmacV1Auth.sign_string c string_to_sign)])
       r)
  ∧ HTTPHeaders.contains "Date" h2 = true.
Proof.
  intros self h1 h2 sts.
  assert (HTTPHeaders.contains "Date" h1 = HTTPHeaders.contains "Date" (headers r))
    as Hd1.
  { subst h1. destruct (token_truthy c); [|by rewrite app_nil_r].
    unfold HTTPHeaders.contains. rewrite existsb_app. simpl.
    by rewrite orb_false_r. }
  assert ((HmacV1Auth.canonical_string now self (method r) (url r) h1).2 = h2)
    as Hh2.
  { unfold HmacV1Auth.canonical_string, HmacV1Auth.canonical_standard_headers.
    simpl. rewrite Hd1. subst h2.
    destruct (HTTPHeaders.contains "Date" (headers r)); [by rewrite app_nil_r|done]. }
  split.
  - unfold HmacV1Auth.add_auth.
    change (HmacV1Auth.credentials self) with (Some c). cbv beta iota.
    unfold HmacV1Auth.get_signature.
    replace (match token_truthy c with
             | Some t => HTTPHeaders.setitem "x-amz-security-token" t (headers r)
             | None => headers r
             end) with h1
      by (subst h1; destruct (token_truthy c);
          [done|by rewrite app_nil_r]).
    subst sts. rewrite <- Hh2.
    by destruct (HmacV1Auth.canonical_string now self (method r) (url r) h1).
  - subst h2. unfold HTTPHeaders.contains in *. rewrite existsb_app, Hd1.
    by destruct (existsb (HTTPHeaders.matches "Date") (headers r)).
Qed.

(** ** HTTPHeaders.from_pairs and HTTPHeaders.from_dict (compat.py) *)

Lemma from_pairs_fold (acc : HTTPHeaders.t) (pairs : list (string * string)) :
  foldl (λ new_instance kv, HTTPHeaders.setitem kv.1 kv.2 new_instance) acc pairs
  = acc ++ pairs.
Proof.
  revert acc. induction pairs as [|[n v] pairs IH]; intros acc; simpl.
  - by rewrite app_nil_r.
  - rewrite IH. unfold HTTPHeaders.setitem. by rewrite <- (assoc_L (++)).
Qed.

(** X15.  [from_pairs] keeps every pair, repeated names included, in the order
    given: [items()] of the new object is the list it was built from, and
    an object rebuilt from its own [items()] is equal to the original. *)
Theorem from_pairs_items (pairs : list (string * string)) (h : HTTPHeaders.t) :
  HTTPHeaders.items (HTTPHeaders.from_pairs pairs) = pairs
  ∧ HTTPHeaders.from_pairs (HTTPHeaders.items h) = h.
Proof.
  unfold HTTPHeaders.items, HTTPHeaders.from_pairs.
  by rewrite !from_pairs_fold.
Qed.

(** X16.  Looking up, in the object built by [from_dict], a key of the dict that
    no other key of the dict equals up to case gives the dict's value for
    that key, and it is the only value stored under that name. *)
Theorem from_dict_get (d : gmap string string) (k v : string) :
  d !! k = Some v →
  (∀ k', is_Some (d !! k') → Py.lower k' = Py.lower k → k' = k) →
  HTTPHeaders.get k (HTTPHeaders.from_dict d) = Some v
  ∧ HTTPHeaders.get_all k (HTTPHeaders.from_dict d) = [v].
Proof.
  intros Hk Huniq. unfold HTTPHeaders.from_dict. rewrite from_pairs_fold.
  rewrite app_nil_l.
  assert (List.filter (HTTPHeaders.matches k) (map_to_list d) = [(k, v)]) as Hf.
  { pose proof (NoDup_map_to_list d) as Hnd.
    assert ((k, v) ∈ map_to_list d) as Hin by (by apply elem_of_map_to_list).
    assert (∀ kv, kv ∈ map_to_list d → HTTPHeaders.matches k kv = true → kv = (k, v))
      as Hm.
    { intros [k' v'] Hin' Hm'. apply elem_of_map_to_list in Hin'.
      unfold HTTPHeaders.matches in Hm'. simpl in Hm'. apply String.eqb_eq in Hm'.
      assert (k' = k) as -> by (apply Huniq; [by eexists|done]). congruence. }
    revert Hnd Hin Hm. generalize (map_to_list d). intros l.
    induction l as [|kv l IH]; intros Hnd Hin Hm; [by apply elem_of_nil in Hin|].
    apply NoDup_cons in Hnd as [Hnin Hnd]. cbn [List.filter].
    assert (∀ l', (∀ x, x ∈ l' → HTTPHeaders.matches k x = true → x = (k, v)) →
                  (k, v) ∉ l' → List.filter (HTTPHeaders.matches k) l' = []) as Hnil.
    { clear. intros l' Hm Hnin. induction l' as [|x l' IH]; [done|].
      cbn [List.filter]. destruct (HTTPHeaders.matches k x) eqn:Ex.
      - exfalso. apply Hnin. rewrite <- (Hm x); [by left|by left|done].
      - apply IH; [intros ? ?; apply Hm; by right|].
        intros ?. apply Hnin. by right. }
    destruct (HTTPHeaders.matches k kv) eqn:Ekv.
    - assert (kv = (k, v)) as -> by (apply Hm; [by left|done]).
      rewrite Hnil; [done|intros ? ?; apply Hm; by right|exact Hnin].
    - apply IH; [done| |intros ? ?; apply Hm; by right].
      apply elem_of_cons in Hin as [<-|Hin]; [|done].
      unfold HTTPHeaders.matches in Ekv. simpl in Ekv.
      by rewrite String.eqb_refl in Ekv. }
  split.
  - unfold HTTPHeaders.get.
    assert (∀ l, List.filter (HTTPHeaders.matches k) l = [(k, v)] →
                 List.find (HTTPHeaders.matches k) l = Some (k, v)) as Hfind.
    { clear. induction l as [|x l IH]; [done|]. cbn [List.filter List.find].
      destruct (HTTPHeaders.matches k x); [by intros [= ->]|done]. }
    by rewrite (Hfind _ Hf).
  - unfold HTTPHeaders.get_all. by rewrite Hf.
Qed.

Lemma from_dict_get_witness :
  let d : gmap string string :=
    <["Content-Type" := "text/plain"]> (<["X-Amz-Date" := "20110909T233600Z"]> ∅) in
  HTTPHeaders.get "Content-Type" (HTTPHeaders.from_dict d) = Some "text/plain"
  ∧ HTTPHeaders.get_all "Content-Type" (HTTPHeaders.from_dict d) = ["text/plain"].
Proof.
  intros d.
  apply (from_dict_get d "Content-Type" "text/plain").
  - apply lookup_insert_eq.
  - intros k' [v' Hk'] Hlow. subst d.
    apply lookup_insert_Some in Hk' as [[<- _]|[_ Hk']]; [done|].
    apply lookup_insert_Some in Hk' as [[<- _]|[_ Hk']].
    + vm_compute in Hlow. discriminate.
    + rewrite lookup_empty in Hk'. discriminate.
Defined.

(** ** SigV4Auth.add_auth on bodies that are not streams *)

Section SigV4StringBody.
Context `{Hashlib} `{BotocoreUtils}.

(** [payload] on a body that is not a file-like object: the else branches. *)
Lemma payload_not_stream (r : Request) :
  (∀ f, body r ≠ BodyStream f) →
  SigV4Auth.payload r
  = (if body_truthy (body r)
     then match body_encode (body r) with
          | inl e => inl e
          | inr bytes => inr (SigV4Auth.sha256_hexdigest bytes)
          end
     else inr EMPTY_SHA256_HASH, r).
Proof.
  intros Hb. unfold SigV4Auth.payload.
  destruct (body r) as [|s|u|f] eqn:Eb; simpl.
  - done.
  - destruct (Py.truthy s); [|done]. by destruct (Py.is_ascii s).
  - by destruct (Py.truthy u).
  - by destruct (Hb f).
Qed.


(** X18.  With credentials and a byte-string body that holds a byte above
    127, [add_auth] raises UnicodeDecodeError whenever it has to hash the
    body: always for S3SigV4Auth, and for SigV4Auth unless the request
    carries an X-Amz-Content-SHA256 header.  The timestamp has been
    recorded and the headers prepared by then; the request is left
    without any Authorization header. *)
Theorem sigv4_add_auth_non_ascii_body_raises (now : Clock)
    (self : SigV4Auth.self_t) (c : Credentials) (r : Request) (s : string) :
  SigV4Auth.credentials self = Some c →
  body r = BodyStr s →
  Py.is_ascii s = false →
  SigV4Auth.klass self = SigV4Auth.S3
  ∨ HTTPHeaders.contains "X-Amz-Content-SHA256" (headers r) = false →
  ∃ h', SigV4Auth.add_auth now self r
        = (inl UnicodeDecodeError,
           SigV4Auth.set_timestamp (strftime_amz now) self,
           with_headers h' r)
        ∧ HTTPHeaders.contains "Authorization" h' = false.
Proof.
  intros Hc Hb Hascii Hneed. unfold SigV4Auth.add_auth. rewrite Hc.
  assert (Py.truthy s = true) as Hs by (by destruct s).
  destruct (sign_request_payload_fails
              (SigV4Auth.set_timestamp (strftime_amz now) self) c r
              UnicodeDecodeError) as [h' Hrun].
  { intros h. rewrite payload_not_stream by (simpl; by rewrite Hb).
    simpl. by rewrite Hb; simpl; rewrite Hs, Hascii. }
  { done. }
  destruct (sign_request_count
              (SigV4Auth.set_timestamp (strftime_amz now) self) c r)
    as (res' & h'' & Hcnt & Hn).
  rewrite Hrun in Hcnt. injection Hcnt as <- <-.
  rewrite Hrun. exists h'. split; [done|].
  unfold HTTPHeaders.count, HTTPHeaders.get_all in Hn.
  unfold HTTPHeaders.contains. clear -Hn.
  induction h' as [|kv h' IH]; [done|]. simpl in *.
  destruct (HTTPHeaders.matches "Authorization" kv); [done|by apply IH].
Qed.

End SigV4StringBody.


Lemma sigv4_add_auth_non_ascii_body_raises_witness :
  let b := String (Ascii.ascii_of_N 233) "t" in
  let r := Sample.request [("Authorization", "AWS4-HMAC-SHA256 stale")]
             (BodyStr b) in
  let self := SigV4Auth.mkSelf SigV4Auth.Plain (Some Sample.creds) ""
                "us-east-1" "ec2" in
  ∃ h', SigV4Auth.add_auth (H := Sample.hashes) (H0 := Sample.utils)
          Sample.now self r
        = (inl UnicodeDecodeError,
           SigV4Auth.set_timestamp (strftime_amz Sample.now) self,
           with_headers h' r)
        ∧ HTTPHeaders.contains "Authorization" h' = false.
Proof.
  intros b r self.
  apply (sigv4_add_auth_non_ascii_body_raises (H := Sample.hashes)
           (H0 := Sample.utils) Sample.now self Sample.creds r b);
    [reflexivity|reflexivity|reflexivity|right; reflexivity].
Defined.
